(** * rag_pi: the document question-answering pipeline of [main.py]

    A shallow embedding of the Streamlit script: the session state and the
    user-visible reports are explicit state, every call into a third-party
    library (file system, loader, splitter, Chroma, Pinecone, OpenAI, the
    retrieval chain) is an oracle of an environment record, and Python's
    exceptions are an error result that [try_except] catches. *)

From Stdlib Require Import String Ascii List Bool Arith Lia DecimalString.
Import ListNotations.
Open Scope string_scope.
Open Scope list_scope.

(** ** Values *)

(** A langchain [Document]: loaded pages and split chunks share this class. *)
Record Document := mkDocument {
  page_content : string;
  metadata : string
}.

(** One turn of [st.session_state.messages]: [(query, answer)]. *)
Definition Turn : Type := string * string.

(** Opaque objects handed back by the libraries. *)
Variant Retriever := retriever_obj (id : nat).
Variant VectorDB := vectordb_obj (id : nat).
Variant Embeddings := embeddings_obj (id : nat).
Variant PineconeClient := pinecone_obj (id : nat).
Variant ChatModel := chat_model_obj (id : nat).
Variant QAChain := qa_chain_obj (id : nat).

Record ServerlessSpec := mkServerlessSpec {
  cloud : string;
  region : string
}.

(** What [pc.describe_index] returns, as far as the script reads it. *)
Record IndexInfo := mkIndexInfo {
  dimension : nat
}.

(** The dict returned by calling the chain; ['answer'] may be missing. *)
Record ChainResult := mkChainResult {
  answer : option string;
  source_documents : list Document
}.

(** A Python exception (subclass of [Exception]): [str(e)] and the
    [response] attribute that the Pinecone handler probes with [hasattr]:
    [None] is no such attribute, [Some None] an attribute that holds
    Python's [None] (no response arrived), [Some (Some c)] a response whose
    [.content] is [c]. *)
Record Exn := mkExn {
  exn_str : string;
  exn_response : option (option string)
}.

Inductive Result (A : Type) : Type :=
| Ok (a : A)
| Raise (e : Exn).
Arguments Ok {A} a.
Arguments Raise {A} e.

(** ** Session state, reports and external requests *)

(** [st.session_state]. The keys that [setup_interface] always assigns are
    plain fields; [messages] and [retriever] may be absent, and a present
    [retriever] may hold [None]. *)
Record Session := mkSession {
  openai_api_key : string;
  pinecone_api_key : string;
  pinecone_env : string;
  pinecone_index : string;
  pinecone_db : bool;
  source_docs : list string;
  messages : option (list Turn);
  retriever : option (option Retriever)
}.

(** Requests that leave the script. *)
Inductive ExtOp :=
| TmpWrite (bytes : string)
| TmpIterdir
| TmpUnlink (file : string)
| LoaderLoad (dir glob : string)
| SplitDocuments (chunk_size chunk_overlap : nat) (documents : list Document)
| NewOpenAIEmbeddings (key : option string)
| ChromaFromDocuments (texts : list Document) (e : Embeddings) (persist_directory : string)
| ChromaPersist (db : VectorDB)
| AsRetriever (db : VectorDB) (k : nat)
| NewPinecone (api_key : string)
| CreateIndex (pc : PineconeClient) (name : string) (dim : nat) (metric : string) (spec : ServerlessSpec)
| Sleep (seconds : nat)
| DescribeIndex (pc : PineconeClient) (name : string)
| PineconeFromDocuments (texts : list Document) (e : Embeddings) (index_name : string)
| NewChatOpenAI (key : string)
| ChainFromLlm (llm : ChatModel) (r : Retriever)
| ChainCall (chain : QAChain) (question : string) (chat_history : list Turn).

(** Everything observable of a run, newest first in the log. *)
Inductive Event :=
| StError (msg : string)
| StSuccess (msg : string)
| StWarning (msg : string)
| StInfo (msg : string)
| StWrite (label body : string)
| StSpinner (msg : string)
| ChatMessage (role body : string)
| Ext (op : ExtOp).

Record World := mkWorld {
  sess : Session;
  log : list Event
}.

(** The third-party libraries. Every oracle sees the log so far, so an
    answer may depend on all earlier requests. *)
Record Env := mkEnv {
  tmp_write : list Event -> string -> Result unit;
  tmp_iterdir : list Event -> Result (list string);
  tmp_unlink : list Event -> string -> Result unit;
  loader_load : list Event -> Result (list Document);
  splitter_split : list Event -> nat -> nat -> list Document -> Result (list Document);
  new_embeddings : list Event -> option string -> Result Embeddings;
  chroma_from_documents : list Event -> list Document -> Embeddings -> string -> Result VectorDB;
  chroma_persist : list Event -> VectorDB -> Result unit;
  as_retriever : list Event -> VectorDB -> nat -> Result (option Retriever);
  new_pinecone : list Event -> string -> Result PineconeClient;
  create_index : list Event -> PineconeClient -> string -> nat -> string -> ServerlessSpec -> Result unit;
  sleep : list Event -> nat -> Result unit;
  describe_index : list Event -> PineconeClient -> string -> Result IndexInfo;
  list_indexes : list Event -> PineconeClient -> list string;
  pinecone_from_documents : list Event -> list Document -> Embeddings -> string -> Result VectorDB;
  new_chat_openai : list Event -> string -> Result ChatModel;
  chain_from_llm : list Event -> ChatModel -> Retriever -> Result QAChain;
  chain_call : list Event -> QAChain -> string -> list Turn -> Result ChainResult;
  session_attribute_error : string -> Exn
}.

(** ** The monad of the script: state, log and exceptions *)

Definition M (A : Type) : Type := World -> Result A * World.

Definition ret {A} (a : A) : M A := fun w => (Ok a, w).

Definition bind {A B} (m : M A) (k : A -> M B) : M B :=
  fun w =>
    match m w with
    | (Ok a, w') => k a w'
    | (Raise e, w') => (Raise e, w')
    end.

Definition raise {A} (e : Exn) : M A := fun w => (Raise e, w).

(** [try: m except Exception as e: h e]. *)
Definition try_except {A} (m : M A) (h : Exn -> M A) : M A :=
  fun w =>
    match m w with
    | (Ok a, w') => (Ok a, w')
    | (Raise e, w') => h e w'
    end.

Declare Scope py_scope.
Delimit Scope py_scope with py.
Notation "x <- c ;; k" := (bind c (fun x => k))
  (at level 61, c at next level, right associativity) : py_scope.
Notation "c ;; k" := (bind c (fun _ => k))
  (at level 61, right associativity) : py_scope.
Open Scope py_scope.

Definition emit (e : Event) : M unit :=
  fun w => (Ok tt, mkWorld (sess w) (e :: log w)).

Definition get_session : M Session := fun w => (Ok (sess w), w).

Definition put_session (s : Session) : M unit :=
  fun w => (Ok tt, mkWorld s (log w)).

(** An external request: logged, then answered by the oracle from the log
    as it stood before the request. *)
Definition ext_call {A} (op : ExtOp) (oracle : list Event -> Result A) : M A :=
  fun w => (oracle (log w), mkWorld (sess w) (Ext op :: log w)).

(** [for x in xs: body x]. *)
Fixpoint for_each {A} (xs : list A) (body : A -> M unit) : M unit :=
  match xs with
  | [] => ret tt
  | x :: xs' => body x ;; for_each xs' body
  end.

Definition st_error (msg : string) : M unit := emit (StError msg).
Definition st_success (msg : string) : M unit := emit (StSuccess msg).
Definition st_warning (msg : string) : M unit := emit (StWarning msg).
Definition st_info (msg : string) : M unit := emit (StInfo msg).
Definition st_write (label body : string) : M unit := emit (StWrite label body).
Definition chat_write (role body : string) : M unit := emit (ChatMessage role body).

(** Python truthiness of a string and of a list. *)
Definition truthy_str (s : string) : bool :=
  match s with
  | EmptyString => false
  | String _ _ => true
  end.

Definition truthy_list {A} (l : list A) : bool :=
  match l with
  | [] => false
  | _ :: _ => true
  end.

(** [str(n)] for a length. *)
Definition str_of_nat (n : nat) : string := NilEmpty.string_of_uint (Nat.to_uint n).

(** ** Module namespace

    The names bound at module level by the [import] statements and the
    [def]s of [main.py]. A name used in a function body is looked up here
    when the body runs. *)
Definition module_globals : list string :=
  [ "os"; "tempfile"; "Path"; "OpenAIEmbeddings"; "Chroma"; "Pinecone"; "pvs";
    "PineconeVectorStore"; "ServerlessSpec"; "DirectoryLoader";
    "CharacterTextSplitter"; "ConversationalRetrievalChain"; "ChatOpenAI";
    "st"; "TMP_DIR"; "LOCAL_VECTOR_STORE_DIR";
    "load_documents"; "split_documents"; "embeddings_on_local_vectordb";
    "embeddings_on_pinecone"; "query_llm"; "setup_interface";
    "process_documents"; "main" ].

Definition name_error (name : string) : Exn :=
  mkExn ("name '" ++ name ++ "' is not defined") None.

Definition global_name (name : string) : M unit :=
  if existsb (String.eqb name) module_globals then ret tt
  else raise (name_error name).

Definition key_error (key : string) : Exn :=
  mkExn ("'" ++ key ++ "'") None.

(** [TMP_DIR] and [LOCAL_VECTOR_STORE_DIR], written relative to the
    directory of the script. *)
Definition TMP_DIR : string := "data/tmp".
Definition LOCAL_VECTOR_STORE_DIR : string := "data/vector_store".

Definition attribute_error (type_name attr : string) : Exn :=
  mkExn ("'" ++ type_name ++ "' object has no attribute '" ++ attr ++ "'") None.

Definition set_messages (h : list Turn) (s : Session) : Session :=
  mkSession (openai_api_key s) (pinecone_api_key s) (pinecone_env s)
            (pinecone_index s) (pinecone_db s) (source_docs s)
            (Some h) (retriever s).

Definition set_retriever (r : option Retriever) (s : Session) : Session :=
  mkSession (openai_api_key s) (pinecone_api_key s) (pinecone_env s)
            (pinecone_index s) (pinecone_db s) (source_docs s)
            (messages s) (Some r).

(** What the user did in the browser for one run of the script: the
    secrets file, the sidebar fields, the toggle, the uploads and the chat
    box. Rendering the widgets themselves leaves no report in the log. *)
Record Frontend := mkFrontend {
  secrets : list (string * string);
  typed_openai_api_key : string;
  typed_pinecone_api_key : string;
  typed_pinecone_env : string;
  typed_pinecone_index : string;
  toggled_pinecone_db : bool;
  uploaded : list string;
  chat_input : option string
}.

Definition secret (fe : Frontend) (key : string) : option string :=
  option_map snd (find (fun kv => String.eqb key (fst kv)) (secrets fe)).

(** ** The script *)

Section Script.

Variable env : Env.

(** [st.session_state.messages], an [AttributeError] when the key is absent. *)
Definition session_messages : M (list Turn) :=
  s <- get_session ;;
  match messages s with
  | Some h => ret h
  | None => raise (session_attribute_error env "messages")
  end.

(** [result['answer']]. *)
Definition item_answer (result : ChainResult) : M string :=
  match answer result with
  | Some a => ret a
  | None => raise (key_error "answer")
  end.

Definition load_documents : M (list Document) :=
  try_except
    (files <- ext_call TmpIterdir (tmp_iterdir env) ;;
     if negb (truthy_list files) then
       st_error "No documents found in the temporary directory." ;;
       ret []
     else
       documents <- ext_call (LoaderLoad TMP_DIR "**/*.pdf") (loader_load env) ;;
       (if negb (truthy_list documents) then
          st_error "Documents could not be loaded. Check file formats or permissions"
        else
          st_success ("Loaded " ++ str_of_nat (length documents)
                      ++ " documents scucessfully")) ;;
       ret documents)
    (fun e =>
       st_error ("Error loading documents: " ++ exn_str e) ;;
       ret []).

Definition split_documents (documents : list Document) : M (list Document) :=
  if negb (truthy_list documents) then
    st_error "No documents found to split." ;;
    ret []
  else
    texts <- ext_call (SplitDocuments 1000 0 documents)
                      (fun l => splitter_split env l 1000 0 documents) ;;
    (if negb (truthy_list texts) then
       st_error "Splitting failed. No text chunks created."
     else
       st_success ("Created " ++ str_of_nat (length texts) ++ " text chunks.")) ;;
    ret texts.

Definition embeddings_on_local_vectordb (texts : list Document)
  : M (option Retriever) :=
  try_except
    (if negb (truthy_list texts) then
       st_error "No text chunks were created. Check document splitting." ;;
       ret None
     else
       embedding <- ext_call (NewOpenAIEmbeddings None)
                             (fun l => new_embeddings env l None) ;;
       vectordb <- ext_call (ChromaFromDocuments texts embedding LOCAL_VECTOR_STORE_DIR)
                            (fun l => chroma_from_documents env l texts embedding
                                        LOCAL_VECTOR_STORE_DIR) ;;
       ext_call (ChromaPersist vectordb) (fun l => chroma_persist env l vectordb) ;;
       r <- ext_call (AsRetriever vectordb 7) (fun l => as_retriever env l vectordb 7) ;;
       match r with
       | None =>
           st_error "Error: Retriever could not be initialized from Chroma."
       | Some _ =>
           st_success "Retriever successfully created!"
       end ;;
       ret r)
    (fun e =>
       st_error ("Error creating local vector store: " ++ exn_str e) ;;
       ret None).

(** [time.sleep(5)]: the name [time] is resolved first. *)
Definition time_sleep (seconds : nat) : M unit :=
  global_name "time" ;;
  ext_call (Sleep seconds) (fun l => sleep env l seconds).

Definition embeddings_on_pinecone (texts : list Document)
  : M (option Retriever) :=
  try_except
    (if negb (truthy_list texts) then
       st_error "No text chunks received for Pinecone vectorization." ;;
       ret None
     else
       s <- get_session ;;
       pc <- ext_call (NewPinecone (pinecone_api_key s))
                      (fun l => new_pinecone env l (pinecone_api_key s)) ;;
       let index_name := pinecone_index s in
       let spec := mkServerlessSpec "aws" "us-east-1" in
       st_info "Creating new index with correct dimensions..." ;;
       ext_call (CreateIndex pc index_name 1536 "cosine" spec)
                (fun l => create_index env l pc index_name 1536 "cosine" spec) ;;
       time_sleep 5 ;;
       index_info <- ext_call (DescribeIndex pc index_name)
                              (fun l => describe_index env l pc index_name) ;;
       if negb (Nat.eqb (dimension index_info) 1536) then
         st_error ("Index dimension mismatch. Expected 1536 but got "
                   ++ str_of_nat (dimension index_info)) ;;
         ret None
       else
         s' <- get_session ;;
         embeddings <- ext_call (NewOpenAIEmbeddings (Some (openai_api_key s')))
                                (fun l => new_embeddings env l (Some (openai_api_key s'))) ;;
         vectordb <- ext_call (PineconeFromDocuments texts embeddings index_name)
                              (fun l => pinecone_from_documents env l texts embeddings
                                          index_name) ;;
         r <- ext_call (AsRetriever vectordb 2) (fun l => as_retriever env l vectordb 2) ;;
         match r with
         | None =>
             st_error "Error: Pinecone retriever is None." ;;
             ret None
         | Some r' =>
             st_success "Pinecone retriever successfully created!" ;;
             ret (Some r')
         end)
    (fun e =>
       st_error ("Error creating Pinecone vector store: " ++ exn_str e) ;;
       match exn_response e with
       | None => ret tt
       | Some None => raise (attribute_error "NoneType" "content")
       | Some (Some c) => st_write "Response content:" c
       end ;;
       ret None).

(** Lines 216-237: the [try] block of [query_llm]. The message list is one
    shared object: the chain is handed that object and [append] extends it
    in place. *)
Definition query_llm_try (r : option Retriever) (query : string) : M string :=
  match r with
  | None =>
      st_error "Error: The retriever is None. Ensure documents are processed correctly." ;;
      ret "Error: The retriever is not initialized."
  | Some r' =>
      s <- get_session ;;
      llm <- ext_call (NewChatOpenAI (openai_api_key s))
                      (fun l => new_chat_openai env l (openai_api_key s)) ;;
      qa_chain <- ext_call (ChainFromLlm llm r')
                           (fun l => chain_from_llm env l llm r') ;;
      history <- session_messages ;;
      result <- ext_call (ChainCall qa_chain query history)
                         (fun l => chain_call env l qa_chain query history) ;;
      msgs <- session_messages ;;
      a <- item_answer result ;;
      s' <- get_session ;;
      put_session (set_messages (msgs ++ [(query, a)]) s') ;;
      item_answer result
  end.

Definition query_llm (r : option Retriever) (query : string) : M string :=
  try_except
    (query_llm_try r query)
    (fun e =>
       st_error ("Error processing query: " ++ exn_str e) ;;
       ret "I encountered an error processing your question. Please try again.").

Definition setup_interface (fe : Frontend) : M unit :=
  s <- get_session ;;
  let pick key typed :=
    match secret fe key with
    | Some v => v
    | None => typed
    end in
  put_session
    (mkSession (pick "openai_api_key" (typed_openai_api_key fe))
               (pick "pinecone_api_key" (typed_pinecone_api_key fe))
               (pick "pinecone_env" (typed_pinecone_env fe))
               (pick "pinecone_index" (typed_pinecone_index fe))
               (toggled_pinecone_db fe)
               (uploaded fe)
               (messages s)
               (retriever s)).

(** Lines 322-328: every upload is copied into a fresh temporary file. *)
Definition save_uploads : M unit :=
  s <- get_session ;;
  for_each (source_docs s) (fun d => ext_call (TmpWrite d) (fun l => tmp_write env l d)).

(** Lines 337-338: the temporary directory is emptied. *)
Definition clean_tmp : M unit :=
  files <- ext_call TmpIterdir (tmp_iterdir env) ;;
  for_each files (fun f => ext_call (TmpUnlink f) (fun l => tmp_unlink env l f)).

(** Lines 349-352: the store variant is picked by the toggle. *)
Definition build_store (texts : list Document) : M (option Retriever) :=
  s <- get_session ;;
  if negb (pinecone_db s) then embeddings_on_local_vectordb texts
  else embeddings_on_pinecone texts.

Definition process_documents : M unit :=
  s <- get_session ;;
  if negb (truthy_str (openai_api_key s)) then
    st_warning "Please enter your OpenAI API key."
  else if pinecone_db s
          && (negb (truthy_str (pinecone_api_key s))
              || negb (truthy_str (pinecone_env s))
              || negb (truthy_str (pinecone_index s))) then
    st_warning "Please provide all Pinecone credentials."
  else if negb (truthy_list (source_docs s)) then
    st_warning "Please upload at least one document."
  else
    try_except
      (emit (StSpinner "Processing documents...") ;;
       save_uploads ;;
       documents <- load_documents ;;
       if negb (truthy_list documents) then
         st_error "Document loading failed."
       else
         clean_tmp ;;
         texts <- split_documents documents ;;
         (if negb (truthy_list texts) then
            st_error "Text splitting failed. No text chunks generated."
          else
            st_success ("Generated " ++ str_of_nat (length texts) ++ " text chunks.")) ;;
         r <- build_store texts ;;
         st_success "Documents processed successfully!" ;;
         s' <- get_session ;;
         put_session (set_retriever r s'))
      (fun e => st_error ("An error occurred: " ++ exn_str e)).

(** Lines 393-395: the stored turns are shown again on every run. *)
Definition show_history : M unit :=
  history <- session_messages ;;
  for_each history (fun message =>
    chat_write "human" (fst message) ;;
    chat_write "assistant" (snd message)).

(** One run of the script body. The [Process Documents] button only
    registers [process_documents] as its callback; a click runs the
    callback on its own before the next run of [main]. *)
Definition main (fe : Frontend) : M unit :=
  s <- get_session ;;
  match messages s with
  | None => put_session (set_messages [] s)
  | Some _ => ret tt
  end ;;
  setup_interface fe ;;
  show_history ;;
  match chat_input fe with
  | Some query =>
      if truthy_str query then
        s' <- get_session ;;
        match retriever s' with
        | None => st_warning "Please process documents first."
        | Some r =>
            chat_write "human" query ;;
            response <- query_llm r query ;;
            chat_write "assistant" response
        end
      else ret tt
  | None => ret tt
  end.

End Script.

(** ** The splitter of the specification *)

Module SpecSplitter.

(** Modelled from the spec: the chunking algorithm. [split_documents] hands
    the documents to langchain's [CharacterTextSplitter], a third-party
    class whose code is not part of the repository. The specification
    (section 4.1) describes it: each document's text is cut into
    consecutive spans of at most [maxSize] characters, [overlap] characters
    of the previous span are repeated at the start of the next, document
    order and span order are kept, and a document no longer than [maxSize]
    gives exactly one chunk with the same text. *)
Fixpoint spans (fuel maxSize step : nat) (text : string) : list string :=
  match fuel with
  | 0 => [text]
  | S fuel' =>
      if Nat.leb (String.length text) maxSize then [text]
      else substring 0 maxSize text
           :: spans fuel' maxSize step
                (substring step (String.length text - step) text)
  end.

(** Modelled from the spec: [split] on one text; every step consumes
    [maxSize - overlap] characters, so the text's length is fuel enough. *)
Definition split_text (maxSize overlap : nat) (text : string) : list string :=
  spans (String.length text) maxSize (maxSize - overlap) text.

(** Modelled from the spec: the chunks of one document inherit its
    metadata. *)
Definition chunks_of (maxSize overlap : nat) (d : Document) : list Document :=
  map (fun t => mkDocument t (metadata d))
      (split_text maxSize overlap (page_content d)).

(** Modelled from the spec: [split(documents, maxSize, overlap)]. *)
Definition split (maxSize overlap : nat) (documents : list Document)
  : list Document :=
  flat_map (chunks_of maxSize overlap) documents.

End SpecSplitter.

(** An environment whose splitter is the one of the specification. *)
Definition with_spec_splitter (env : Env) : Env :=
  mkEnv (tmp_write env) (tmp_iterdir env) (tmp_unlink env) (loader_load env)
        (fun _ maxSize overlap documents =>
           Ok (SpecSplitter.split maxSize overlap documents))
        (new_embeddings env) (chroma_from_documents env) (chroma_persist env)
        (as_retriever env) (new_pinecone env) (create_index env) (sleep env)
        (describe_index env) (list_indexes env) (pinecone_from_documents env)
        (new_chat_openai env) (chain_from_llm env) (chain_call env)
        (session_attribute_error env).

(** ** Sample environments

    A small stand-in for the services, used to run the script on concrete
    inputs: the file system and the embedding service always answer, the
    loader returns [loaded], the splitter and the chain are given, and the
    index service holds [preexisting] indexes (name and dimension), rejects
    the creation of a name it already holds and creates new indexes with
    the requested dimension. *)

Module Sample.

Fixpoint created_names (l : list Event) : list (string * nat) :=
  match l with
  | [] => []
  | Ext (CreateIndex _ name dim _ _) :: l' => (name, dim) :: created_names l'
  | _ :: l' => created_names l'
  end.

Definition held (preexisting : list (string * nat)) (l : list Event)
  : list (string * nat) :=
  preexisting ++ rev (created_names l).

Definition lookup_index (name : string) (indexes : list (string * nat))
  : option nat :=
  option_map snd (find (fun kv => String.eqb name (fst kv)) indexes).

Definition conflict : Exn :=
  mkExn "(409) Reason: Conflict ALREADY_EXISTS" None.

Definition not_found : Exn :=
  mkExn "(404) Reason: Not Found" None.

Definition services
    (loaded : list Document)
    (splitter : nat -> nat -> list Document -> Result (list Document))
    (preexisting : list (string * nat))
    (chain : string -> list Turn -> Result ChainResult) : Env :=
  mkEnv
    (fun _ _ => Ok tt)
    (fun _ => Ok ["upload0.pdf"])
    (fun _ _ => Ok tt)
    (fun _ => Ok loaded)
    (fun _ => splitter)
    (fun _ _ => Ok (embeddings_obj 0))
    (fun _ _ _ _ => Ok (vectordb_obj 0))
    (fun _ _ => Ok tt)
    (fun _ _ k => Ok (Some (retriever_obj k)))
    (fun _ _ => Ok (pinecone_obj 0))
    (fun l _ name _ _ _ =>
       match lookup_index name (held preexisting l) with
       | Some _ => Raise conflict
       | None => Ok tt
       end)
    (fun _ _ => Ok tt)
    (fun l _ name =>
       match lookup_index name (held preexisting l) with
       | Some dim => Ok (mkIndexInfo dim)
       | None => Raise not_found
       end)
    (fun l _ => map fst (held preexisting l))
    (fun _ _ _ _ => Ok (vectordb_obj 1))
    (fun _ _ => Ok (chat_model_obj 0))
    (fun _ _ _ => Ok (qa_chain_obj 0))
    (fun _ _ => chain)
    (fun key => mkExn ("st.session_state has no attribute " ++ key) None).

Definition spec_splitter (maxSize overlap : nat) (documents : list Document)
  : Result (list Document) :=
  Ok (SpecSplitter.split maxSize overlap documents).

(** A splitter that finds nothing to cut, as for pages without text. *)
Definition no_chunks (maxSize overlap : nat) (documents : list Document)
  : Result (list Document) :=
  Ok [].

Definition echo_chain (question : string) (history : list Turn)
  : Result ChainResult :=
  Ok (mkChainResult (Some ("Answer to: " ++ question)%string) []).

Definition failing_chain (question : string) (history : list Turn)
  : Result ChainResult :=
  Raise (mkExn "Rate limit reached" None).

Definition report : Document := mkDocument "Quarterly report." "report.pdf".
Definition blank_page : Document := mkDocument EmptyString "scan.pdf".
Definition chunk : Document := mkDocument "Quarterly report." "report.pdf".

(** The session after the sidebar was filled in and one file uploaded. *)
Definition local_session : Session :=
  mkSession "sk-test" EmptyString EmptyString EmptyString false ["%PDF-1.4"]
            (Some []) None.

Definition cloud_session : Session :=
  mkSession "sk-test" "pc-test" "us-east-1" "docs" true ["%PDF-1.4"]
            (Some []) None.

Definition chatting_session : Session :=
  mkSession "sk-test" EmptyString EmptyString EmptyString false []
            (Some [("What is X?", "X is a letter.")])
            (Some (Some (retriever_obj 7))).

Definition start (s : Session) : World := mkWorld s [].

Definition asks (q : string) : Frontend :=
  mkFrontend [] "sk-test" EmptyString EmptyString EmptyString false [] (Some q).

End Sample.

(** ** Reading a log *)

(** What the chat page shows for the stored history, on top of log [l]. *)
Fixpoint rendered (h : list Turn) (l : list Event) : list Event :=
  match h with
  | [] => l
  | m :: h' =>
      rendered h' (ChatMessage "assistant" (snd m) :: ChatMessage "human" (fst m) :: l)
  end.

(** The external requests of a log, oldest first. *)
Fixpoint requests (l : list Event) : list ExtOp :=
  match l with
  | [] => []
  | Ext op :: l' => requests l' ++ [op]
  | _ :: l' => requests l'
  end.

Definition is_write (op : ExtOp) : bool :=
  match op with
  | PineconeFromDocuments _ _ _ => true
  | ChromaFromDocuments _ _ _ => true
  | ChromaPersist _ => true
  | _ => false
  end.

Definition is_mismatch_report (e : Event) : bool :=
  match e with
  | StError msg => prefix "Index dimension mismatch." msg
  | _ => false
  end.

Definition is_write_event (e : Event) : bool :=
  match e with
  | Ext op => is_write op
  | _ => false
  end.

Definition is_describe_event (e : Event) : bool :=
  match e with
  | Ext (DescribeIndex _ _) => true
  | _ => false
  end.

(** The run from [w] to [w'] added no event that satisfies [p]. *)
Definition adds_no (p : Event -> bool) (w w' : World) : Prop :=
  filter p (log w') = filter p (log w).

(** Lines 342-345: what [process_documents] reports on the split. *)
Definition split_report (texts : list Document) : Event :=
  if negb (truthy_list texts) then
    StError "Text splitting failed. No text chunks generated."
  else
    StSuccess ("Generated " ++ str_of_nat (length texts) ++ " text chunks.").

(** The validation at the head of [process_documents] lets the run through. *)
Definition validated (s : Session) : bool :=
  truthy_str (openai_api_key s)
  && negb (pinecone_db s
           && (negb (truthy_str (pinecone_api_key s))
               || negb (truthy_str (pinecone_env s))
               || negb (truthy_str (pinecone_index s))))
  && truthy_list (source_docs s).

(** The claim of C2 on creation, as the specification words it: a creation
    request that the build sends names an index that the service does not
    hold when the build starts. *)
Definition creates_only_when_absent (env : Env) (texts : list Document)
    (w : World) : Prop :=
  forall pc name dim metric spec,
    In (CreateIndex pc name dim metric spec)
       (requests (log (snd (embeddings_on_pinecone env texts w)))) ->
    ~ In (CreateIndex pc name dim metric spec) (requests (log w)) ->
    ~ In name (list_indexes env (log w) pc).

(** ** Frames and further samples *)

(** A computation that leaves the session as it found it, whether it
    returns or raises. *)
Definition keeps_session {A} (m : M A) : Prop :=
  forall w, sess (snd (m w)) = sess w.

(** The session that [setup_interface] stores: a secret wins over the typed
    field, the toggle and the uploads come from the widgets, and the two
    remaining keys are carried over. *)
Definition configured (fe : Frontend) (s : Session) : Session :=
  let pick key typed :=
    match secret fe key with
    | Some v => v
    | None => typed
    end in
  mkSession (pick "openai_api_key" (typed_openai_api_key fe))
            (pick "pinecone_api_key" (typed_pinecone_api_key fe))
            (pick "pinecone_env" (typed_pinecone_env fe))
            (pick "pinecone_index" (typed_pinecone_index fe))
            (toggled_pinecone_db fe)
            (uploaded fe)
            (messages s)
            (retriever s).

(** The turns under [messages], none when the key is absent. *)
Definition stored_history (s : Session) : list Turn :=
  match messages s with
  | Some h => h
  | None => []
  end.

(** What one stored turn puts on the page, oldest first. *)
Definition turn_events (m : Turn) : list Event :=
  [ChatMessage "human" (fst m); ChatMessage "assistant" (snd m)].

(** Services that fail. *)
Module Faults.

(** An exception of the HTTP layer raised before any response arrived: its
    [response] attribute is [None]. *)
Definition connection_error : Exn :=
  mkExn "Connection refused" (Some None).

(** [env] with a Pinecone service that cannot be reached. *)
Definition offline (env : Env) : Env :=
  mkEnv (tmp_write env) (tmp_iterdir env) (tmp_unlink env) (loader_load env)
        (splitter_split env)
        (new_embeddings env) (chroma_from_documents env) (chroma_persist env)
        (as_retriever env) (fun _ _ => Raise connection_error)
        (create_index env) (sleep env)
        (describe_index env) (list_indexes env) (pinecone_from_documents env)
        (new_chat_openai env) (chain_from_llm env) (chain_call env)
        (session_attribute_error env).

Definition broken_splitter (maxSize overlap : nat) (documents : list Document)
  : Result (list Document) :=
  Raise (mkExn "expected string or bytes-like object" None).

(** [env] with an empty temporary directory. *)
Definition empty_tmp (env : Env) : Env :=
  mkEnv (tmp_write env) (fun _ => Ok []) (tmp_unlink env) (loader_load env)
        (splitter_split env)
        (new_embeddings env) (chroma_from_documents env) (chroma_persist env)
        (as_retriever env) (new_pinecone env)
        (create_index env) (sleep env)
        (describe_index env) (list_indexes env) (pinecone_from_documents env)
        (new_chat_openai env) (chain_from_llm env) (chain_call env)
        (session_attribute_error env).

End Faults.



(** ** Tactics *)

Ltac unfold_py :=
  unfold query_llm, query_llm_try, session_messages, item_answer, time_sleep,
    global_name, st_error, st_success, st_warning, st_info, st_write,
    chat_write, try_except, bind, ret, raise, emit, ext_call, get_session,
    put_session in *.

Ltac run := unfold_py; cbn in *.

(** ** The question-answering step *)

(** C3: with an unset retriever [query_llm] reports the precondition error
    and returns the matching error text at once; that report is the only
    thing added to the log, so the chat model is never constructed and the
    chain never called, and the session is untouched. *)
Theorem query_llm_unset_retriever (env : Env) (query : string) (w : World) :
  query_llm env None query w =
  (Ok "Error: The retriever is not initialized.",
   mkWorld (sess w)
     (StError "Error: The retriever is None. Ensure documents are processed correctly."
      :: log w)).
Proof. reflexivity. Qed.

(** C6: when the chat model, the chain and the chain call all succeed and
    the result carries an answer [a], [query_llm] returns [a], the history
    stored under [messages] afterwards is the prior history followed by
    [(query, a)], every other key of the session is what it was, and the
    last request of the run is the call of the chain with the whole prior
    history. *)
Theorem query_llm_appends_turn (env : Env) (w : World) (r : Retriever)
    (query a : string) (h : list Turn) (llm : ChatModel) (chain : QAChain)
    (result : ChainResult) :
  let key := openai_api_key (sess w) in
  let l1 := Ext (NewChatOpenAI key) :: log w in
  let l2 := Ext (ChainFromLlm llm r) :: l1 in
  messages (sess w) = Some h ->
  new_chat_openai env (log w) key = Ok llm ->
  chain_from_llm env l1 llm r = Ok chain ->
  chain_call env l2 chain query h = Ok result ->
  answer result = Some a ->
  let out := query_llm env (Some r) query w in
  fst out = Ok a
  /\ messages (sess (snd out)) = Some (h ++ [(query, a)])
  /\ log (snd out) = Ext (ChainCall chain query h) :: l2
  /\ retriever (sess (snd out)) = retriever (sess w)
  /\ openai_api_key (sess (snd out)) = openai_api_key (sess w)
  /\ pinecone_api_key (sess (snd out)) = pinecone_api_key (sess w)
  /\ pinecone_env (sess (snd out)) = pinecone_env (sess w)
  /\ pinecone_index (sess (snd out)) = pinecone_index (sess w)
  /\ pinecone_db (sess (snd out)) = pinecone_db (sess w)
  /\ source_docs (sess (snd out)) = source_docs (sess w).
Proof.
  intros key l1 l2 Hh Hllm Hchain Hcall Ha out.
  subst key l1 l2 out. run.
  rewrite Hllm. cbn. rewrite Hchain. cbn. rewrite Hh. cbn.
  rewrite Hcall. cbn. rewrite Hh, Ha. cbn.
  repeat split; reflexivity.
Qed.

Lemma query_llm_appends_turn_witness :
  let out :=
    query_llm (Sample.services [] Sample.spec_splitter [] Sample.echo_chain)
              (Some (retriever_obj 7)) "And Y?"
              (Sample.start Sample.chatting_session) in
  fst out = Ok "Answer to: And Y?"
  /\ messages (sess (snd out)) =
     Some [("What is X?", "X is a letter."); ("And Y?", "Answer to: And Y?")]
  /\ log (snd out) =
     [Ext (ChainCall (qa_chain_obj 0) "And Y?" [("What is X?", "X is a letter.")]);
      Ext (ChainFromLlm (chat_model_obj 0) (retriever_obj 7));
      Ext (NewChatOpenAI "sk-test")]
  /\ retriever (sess (snd out)) = Some (Some (retriever_obj 7))
  /\ openai_api_key (sess (snd out)) = "sk-test"
  /\ pinecone_api_key (sess (snd out)) = EmptyString
  /\ pinecone_env (sess (snd out)) = EmptyString
  /\ pinecone_index (sess (snd out)) = EmptyString
  /\ pinecone_db (sess (snd out)) = false
  /\ source_docs (sess (snd out)) = [].
Proof.
  apply (query_llm_appends_turn
           (Sample.services [] Sample.spec_splitter [] Sample.echo_chain)
           (Sample.start Sample.chatting_session) (retriever_obj 7) "And Y?"
           "Answer to: And Y?" [("What is X?", "X is a letter.")]
           (chat_model_obj 0) (qa_chain_obj 0)
           (mkChainResult (Some "Answer to: And Y?") []));
    reflexivity.
Defined.

(** The [try] block changes the stored history only on its last step. *)
Lemma query_llm_try_raise_keeps_session (env : Env) (r : option Retriever)
    (query : string) (w w1 : World) (e : Exn) :
  query_llm_try env r query w = (Raise e, w1) -> sess w1 = sess w.
Proof.
  destruct r as [r'|]; run; [|discriminate].
  destruct (new_chat_openai env (log w) (openai_api_key (sess w))) as [llm|e1]; cbn;
    [|intros H; inversion H; reflexivity].
  destruct (chain_from_llm env _ llm r') as [chain|e2]; cbn;
    [|intros H; inversion H; reflexivity].
  destruct (messages (sess w)) as [h|] eqn:Hh; cbn;
    [|intros H; inversion H; reflexivity].
  destruct (chain_call env _ chain query h) as [result|e3]; cbn;
    [|intros H; inversion H; reflexivity].
  rewrite Hh; cbn.
  destruct (answer result) as [a|]; cbn;
    [discriminate|intros H; inversion H; reflexivity].
Qed.

(** C7: whatever raises inside the [try] block of [query_llm] (the chat
    model, the chain, the chain call, a missing answer or history), the
    function still returns: it reports the cause, returns the apology text,
    and the session (the chat history with it) is what it was before. *)
Theorem query_llm_failure_is_caught (env : Env) (r : option Retriever)
    (query : string) (w w1 : World) (e : Exn) :
  query_llm_try env r query w = (Raise e, w1) ->
  query_llm env r query w =
  (Ok "I encountered an error processing your question. Please try again.",
   mkWorld (sess w) (StError ("Error processing query: " ++ exn_str e) :: log w1)).
Proof.
  intros H.
  pose proof (query_llm_try_raise_keeps_session _ _ _ _ _ _ H) as Hs.
  unfold query_llm, try_except. rewrite H.
  run. rewrite Hs. reflexivity.
Qed.

Lemma query_llm_failure_is_caught_witness :
  query_llm (Sample.services [] Sample.spec_splitter [] Sample.failing_chain)
            (Some (retriever_obj 7)) "And Y?"
            (Sample.start Sample.chatting_session) =
  (Ok "I encountered an error processing your question. Please try again.",
   mkWorld Sample.chatting_session
           [StError "Error processing query: Rate limit reached";
            Ext (ChainCall (qa_chain_obj 0) "And Y?" [("What is X?", "X is a letter.")]);
            Ext (ChainFromLlm (chat_model_obj 0) (retriever_obj 7));
            Ext (NewChatOpenAI "sk-test")]).
Proof.
  apply (query_llm_failure_is_caught
           (Sample.services [] Sample.spec_splitter [] Sample.failing_chain)
           (Some (retriever_obj 7)) "And Y?"
           (Sample.start Sample.chatting_session)
           (mkWorld Sample.chatting_session
              [Ext (ChainCall (qa_chain_obj 0) "And Y?" [("What is X?", "X is a letter.")]);
               Ext (ChainFromLlm (chat_model_obj 0) (retriever_obj 7));
               Ext (NewChatOpenAI "sk-test")])
           (mkExn "Rate limit reached" None)).
  reflexivity.
Defined.

(** [query_llm] never lets an exception out. *)
Lemma query_llm_returns (env : Env) (r : option Retriever) (query : string)
    (w : World) :
  exists (text : string) (w' : World), query_llm env r query w = (Ok text, w').
Proof.
  unfold query_llm, try_except.
  destruct (query_llm_try env r query w) as [[text|e] w1]; run; eauto.
Qed.

(** ** Building the stores *)

(** C4: on an empty chunk sequence both builders report the empty input
    and return [None]; the report is the only thing added to the log, so no
    embedding object is made and nothing reaches the disk or the network. *)
Theorem build_rejects_empty_input (env : Env) (w : World) :
  embeddings_on_local_vectordb env [] w =
    (Ok None,
     mkWorld (sess w)
       (StError "No text chunks were created. Check document splitting." :: log w))
  /\
  embeddings_on_pinecone env [] w =
    (Ok None,
     mkWorld (sess w)
       (StError "No text chunks received for Pinecone vectorization." :: log w)).
Proof. split; reflexivity. Qed.

(** C2, as stated, fails: with the index [docs] already held by the
    service, the build on one chunk still sends the creation request. *)
Lemma creates_only_when_absent_counterexample :
  ~ (forall env texts w, texts <> [] -> creates_only_when_absent env texts w).
Proof.
  intros H.
  apply (H (Sample.services [] Sample.spec_splitter [("docs", 768)] Sample.echo_chain)
           [Sample.chunk] (Sample.start Sample.cloud_session) ltac:(discriminate)
           (pinecone_obj 0) "docs" 1536 "cosine" (mkServerlessSpec "aws" "us-east-1")).
  - cbn. right. left. reflexivity.
  - cbn. intros [].
  - cbn. left. reflexivity.
Qed.

(** C2, amended: for a non-empty chunk sequence, once the Pinecone client
    is constructed, the build sends the creation request for the configured
    index name with dimension 1536 and the cosine metric without asking
    whether the index exists; it is the first request to the index service,
    and when it is refused no further request (so no write) follows. *)
Theorem pinecone_always_requests_creation (env : Env) (texts : list Document)
    (w : World) (pc : PineconeClient) :
  let key := pinecone_api_key (sess w) in
  let requested :=
    Ext (CreateIndex pc (pinecone_index (sess w)) 1536 "cosine"
                     (mkServerlessSpec "aws" "us-east-1"))
    :: StInfo "Creating new index with correct dimensions..."
    :: Ext (NewPinecone key) :: log w in
  texts <> [] ->
  new_pinecone env (log w) key = Ok pc ->
  exists later,
    log (snd (embeddings_on_pinecone env texts w)) = later ++ requested
    /\ (forall e,
          create_index env (StInfo "Creating new index with correct dimensions..."
                            :: Ext (NewPinecone key) :: log w)
                       pc (pinecone_index (sess w)) 1536 "cosine"
                       (mkServerlessSpec "aws" "us-east-1") = Raise e ->
          requests later = []).
Proof.
  intros key requested Hne Hpc. subst key requested.
  destruct texts as [|t texts]; [congruence|].
  unfold embeddings_on_pinecone. run. rewrite Hpc. cbn.
  destruct (create_index env _ pc _ 1536 "cosine" _) as [[]|e] eqn:Hc; cbn.
  - exists [StError "Error creating Pinecone vector store: name 'time' is not defined"].
    split; [reflexivity|]. intros e He. discriminate.
  - destruct (exn_response e) as [[c|]|]; cbn.
    + eexists [_; _]. split; [reflexivity|]. reflexivity.
    + eexists [_]. split; [reflexivity|]. reflexivity.
    + eexists [_]. split; [reflexivity|]. reflexivity.
Qed.

Lemma pinecone_always_requests_creation_witness :
  exists later,
    log (snd (embeddings_on_pinecone
                (Sample.services [] Sample.spec_splitter [("docs", 768)] Sample.echo_chain)
                [Sample.chunk] (Sample.start Sample.cloud_session))) =
    later ++ [Ext (CreateIndex (pinecone_obj 0) "docs" 1536 "cosine"
                               (mkServerlessSpec "aws" "us-east-1"));
              StInfo "Creating new index with correct dimensions...";
              Ext (NewPinecone "pc-test")]
    /\ requests later = [].
Proof.
  destruct (pinecone_always_requests_creation
              (Sample.services [] Sample.spec_splitter [("docs", 768)] Sample.echo_chain)
              [Sample.chunk] (Sample.start Sample.cloud_session) (pinecone_obj 0)
              ltac:(discriminate) eq_refl) as [later [Hlog Hreq]].
  exists later. split; [exact Hlog|].
  apply (Hreq Sample.conflict). reflexivity.
Defined.

(** X7: the cloud build never gets as far as its dimension check: whatever the
    services answer, it sends no [describe_index] request, reports no
    dimension mismatch, writes nothing, and never returns a retriever. *)
Lemma pinecone_check_unreachable (env : Env) (texts : list Document) (w : World) :
  let out := embeddings_on_pinecone env texts w in
  adds_no is_describe_event w (snd out)
  /\ adds_no is_mismatch_report w (snd out)
  /\ adds_no is_write_event w (snd out)
  /\ (forall r, fst out <> Ok (Some r)).
Proof.
  intros out. subst out. unfold adds_no, embeddings_on_pinecone.
  destruct texts as [|t texts]; run.
  - repeat split; try reflexivity. intros r; discriminate.
  - destruct (new_pinecone env (log w) (pinecone_api_key (sess w))) as [pc|e0]; cbn.
    + destruct (create_index env _ pc _ 1536 "cosine" _) as [[]|e]; cbn.
      * repeat split; try reflexivity. intros r; discriminate.
      * destruct (exn_response e) as [[c|]|]; cbn;
          (repeat split; try reflexivity; intros r; discriminate).
    + destruct (exn_response e0) as [[c|]|]; cbn;
        (repeat split; try reflexivity; intros r; discriminate).
Qed.

(** C5, at an index [docs] held with dimension 768: the creation request is
    refused, the general handler reports it, [None] comes back and nothing
    is written; the dimension-mismatch report is not made. *)
Theorem pinecone_mismatch_not_reported :
  embeddings_on_pinecone
    (Sample.services [] Sample.spec_splitter [("docs", 768)] Sample.echo_chain)
    [Sample.chunk] (Sample.start Sample.cloud_session) =
  (Ok None,
   mkWorld Sample.cloud_session
     [StError "Error creating Pinecone vector store: (409) Reason: Conflict ALREADY_EXISTS";
      Ext (CreateIndex (pinecone_obj 0) "docs" 1536 "cosine"
                       (mkServerlessSpec "aws" "us-east-1"));
      StInfo "Creating new index with correct dimensions...";
      Ext (NewPinecone "pc-test")]).
Proof. reflexivity. Qed.

(** On a service without the index, creation is accepted and the run stops
    at [time.sleep]: the module never imports [time]. *)
Example pinecone_fresh_index_stops_at_sleep :
  embeddings_on_pinecone
    (Sample.services [] Sample.spec_splitter [] Sample.echo_chain)
    [Sample.chunk] (Sample.start Sample.cloud_session) =
  (Ok None,
   mkWorld Sample.cloud_session
     [StError "Error creating Pinecone vector store: name 'time' is not defined";
      Ext (CreateIndex (pinecone_obj 0) "docs" 1536 "cosine"
                       (mkServerlessSpec "aws" "us-east-1"));
      StInfo "Creating new index with correct dimensions...";
      Ext (NewPinecone "pc-test")]).
Proof. reflexivity. Qed.

(** ** The ingestion run *)

Lemma render_history (h : list Turn) (w : World) :
  for_each h (fun message =>
                chat_write "human" (fst message) ;;
                chat_write "assistant" (snd message)) w =
  (Ok tt, mkWorld (sess w) (rendered h (log w))).
Proof.
  revert w. induction h as [|m h IH]; intros w.
  - destruct w; reflexivity.
  - cbn [for_each rendered]. unfold bind at 1. run. rewrite IH. reflexivity.
Qed.

Lemma show_history_renders (env : Env) (w : World) (h : list Turn) :
  messages (sess w) = Some h ->
  show_history env w = (Ok tt, mkWorld (sess w) (rendered h (log w))).
Proof.
  intros Hm. unfold show_history, session_messages.
  unfold bind at 1. unfold bind at 1. unfold get_session.
  rewrite Hm. unfold ret at 1. apply render_history.
Qed.


Lemma validated_inv (s : Session) :
  validated s = true ->
  truthy_str (openai_api_key s) = true
  /\ pinecone_db s
     && (negb (truthy_str (pinecone_api_key s))
         || negb (truthy_str (pinecone_env s))
         || negb (truthy_str (pinecone_index s))) = false
  /\ truthy_list (source_docs s) = true.
Proof.
  unfold validated. intros H.
  apply andb_prop in H. destruct H as [H H3].
  apply andb_prop in H. destruct H as [H1 H2].
  apply negb_true_iff in H2. auto.
Qed.





(** C1, at an upload whose pages carry no text, so that the splitter
    returns no chunk: the run reports the failed split and goes on; it
    calls the local store builder, which turns the empty input down, then
    reports success and stores [None] under [retriever]. *)
Theorem empty_split_does_not_halt :
  process_documents
    (Sample.services [Sample.blank_page] Sample.no_chunks [] Sample.echo_chain)
    (Sample.start Sample.local_session) =
  (Ok tt,
   mkWorld (set_retriever None Sample.local_session)
     [StSuccess "Documents processed successfully!";
      StError "No text chunks were created. Check document splitting.";
      StError "Text splitting failed. No text chunks generated.";
      StError "Splitting failed. No text chunks created.";
      Ext (SplitDocuments 1000 0 [Sample.blank_page]);
      Ext (TmpUnlink "upload0.pdf");
      Ext TmpIterdir;
      StSuccess "Loaded 1 documents scucessfully";
      Ext (LoaderLoad "data/tmp" "**/*.pdf");
      Ext TmpIterdir;
      Ext (TmpWrite "%PDF-1.4");
      StSpinner "Processing documents..."]).
Proof. reflexivity. Qed.

(** The sibling step does halt: when loading returns no document, the run
    stops there and the key [retriever] stays absent. *)
Example empty_load_halts :
  process_documents
    (Sample.services [] Sample.no_chunks [] Sample.echo_chain)
    (Sample.start Sample.local_session) =
  (Ok tt,
   mkWorld Sample.local_session
     [StError "Document loading failed.";
      StError "Documents could not be loaded. Check file formats or permissions";
      Ext (LoaderLoad "data/tmp" "**/*.pdf");
      Ext TmpIterdir;
      Ext (TmpWrite "%PDF-1.4");
      StSpinner "Processing documents..."]).
Proof. reflexivity. Qed.

(** A local run on one readable document ends with a retriever stored. *)
Example local_ingestion_ready :
  let env := Sample.services [Sample.report] Sample.spec_splitter [] Sample.echo_chain in
  let w := snd (process_documents env (Sample.start Sample.local_session)) in
  retriever (sess w) = Some (Some (retriever_obj 7))
  /\ requests (log w) =
     [TmpWrite "%PDF-1.4"; TmpIterdir; LoaderLoad "data/tmp" "**/*.pdf";
      TmpIterdir; TmpUnlink "upload0.pdf";
      SplitDocuments 1000 0 [Sample.report];
      NewOpenAIEmbeddings None;
      ChromaFromDocuments [Sample.chunk] (embeddings_obj 0) "data/vector_store";
      ChromaPersist (vectordb_obj 0);
      AsRetriever (vectordb_obj 0) 7].
Proof. split; reflexivity. Qed.

(** Before any ingestion the key is absent and [main] asks for documents;
    after the run on the blank upload the same question reaches
    [query_llm] and is refused there. *)
Example question_before_and_after_blank_upload :
  let env := Sample.services [Sample.blank_page] Sample.no_chunks [] Sample.echo_chain in
  let w0 := Sample.start Sample.local_session in
  let w1 := snd (process_documents env w0) in
  log (snd (main env (Sample.asks "What is X?") w0)) =
    [StWarning "Please process documents first."]
  /\ firstn 3 (log (snd (main env (Sample.asks "What is X?") w1))) =
     [ChatMessage "assistant" "Error: The retriever is not initialized.";
      StError "Error: The retriever is None. Ensure documents are processed correctly.";
      ChatMessage "human" "What is X?"].
Proof. split; reflexivity. Qed.

(** ** Splitting *)

Lemma length_substring (s : string) :
  forall n m, String.length (substring n m s) = Nat.min m (String.length s - n).
Proof.
  induction s as [|c s IH]; intros n m.
  - destruct n, m; reflexivity.
  - destruct n as [|n].
    + destruct m as [|m]; [reflexivity|].
      cbn [substring String.length]. rewrite IH. cbn. rewrite Nat.sub_0_r. reflexivity.
    + cbn [substring String.length]. rewrite IH. reflexivity.
Qed.

Lemma spans_not_nil (fuel maxSize step : nat) (text : string) :
  1 <= List.length (SpecSplitter.spans fuel maxSize step text).
Proof.
  destruct fuel as [|fuel]; cbn [SpecSplitter.spans]; [cbn; lia|].
  destruct (Nat.leb (String.length text) maxSize); cbn; lia.
Qed.

Lemma spans_bounded (maxSize step : nat) :
  1 <= step ->
  forall fuel text,
    String.length text <= fuel ->
    Forall (fun t => String.length t <= maxSize)
           (SpecSplitter.spans fuel maxSize step text).
Proof.
  intros Hstep. induction fuel as [|fuel IH]; intros text Hlen.
  - cbn [SpecSplitter.spans]. constructor; [lia|constructor].
  - cbn [SpecSplitter.spans].
    destruct (Nat.leb (String.length text) maxSize) eqn:Hle.
    + apply Nat.leb_le in Hle. constructor; [exact Hle|constructor].
    + constructor.
      * rewrite length_substring. lia.
      * apply IH. rewrite length_substring. lia.
Qed.

Lemma split_text_short (maxSize overlap : nat) (text : string) :
  String.length text <= maxSize ->
  SpecSplitter.split_text maxSize overlap text = [text].
Proof.
  intros Hle. unfold SpecSplitter.split_text.
  destruct (String.length text) as [|n] eqn:Hn; cbn [SpecSplitter.spans]; [reflexivity|].
  rewrite Hn. apply Nat.leb_le in Hle. rewrite Hle. reflexivity.
Qed.

Lemma chunks_of_bounded (maxSize overlap : nat) (d : Document) :
  overlap < maxSize ->
  Forall (fun c => String.length (page_content c) <= maxSize)
         (SpecSplitter.chunks_of maxSize overlap d).
Proof.
  intros Hov. unfold SpecSplitter.chunks_of, SpecSplitter.split_text.
  apply Forall_map. cbn [page_content].
  apply spans_bounded; lia.
Qed.

Lemma split_bounded (maxSize overlap : nat) (documents : list Document) :
  overlap < maxSize ->
  Forall (fun c => String.length (page_content c) <= maxSize)
         (SpecSplitter.split maxSize overlap documents).
Proof.
  intros Hov. unfold SpecSplitter.split.
  induction documents as [|d documents IH]; cbn [flat_map]; [constructor|].
  apply Forall_app. split; [apply chunks_of_bounded; exact Hov|exact IH].
Qed.

Lemma chunks_of_not_nil (maxSize overlap : nat) (d : Document) :
  1 <= List.length (SpecSplitter.chunks_of maxSize overlap d).
Proof.
  unfold SpecSplitter.chunks_of, SpecSplitter.split_text.
  rewrite length_map. apply spans_not_nil.
Qed.

(** What [split_documents] does on a non-empty input when the splitter is
    the one of the specification. *)
Lemma split_documents_spec_splitter (env : Env) (documents : list Document)
    (w : World) :
  documents <> [] ->
  split_documents (with_spec_splitter env) documents w =
  (Ok (SpecSplitter.split 1000 0 documents),
   mkWorld (sess w)
     (StSuccess ("Created "
                 ++ str_of_nat (List.length (SpecSplitter.split 1000 0 documents))
                 ++ " text chunks.")
      :: Ext (SplitDocuments 1000 0 documents) :: log w)).
Proof.
  intros Hne. destruct documents as [|d documents]; [congruence|].
  unfold split_documents. cbn [truthy_list negb].
  unfold bind at 1. unfold ext_call at 1. cbn [with_spec_splitter splitter_split].
  unfold bind at 1.
  assert (Hsome : truthy_list (SpecSplitter.split 1000 0 (d :: documents)) = true).
  { unfold SpecSplitter.split. cbn [flat_map].
    pose proof (chunks_of_not_nil 1000 0 d) as Hd.
    destruct (SpecSplitter.chunks_of 1000 0 d); [cbn in Hd; lia|reflexivity]. }
  rewrite Hsome. reflexivity.
Qed.

(** C8: with the splitter of the specification, [split_documents] on a
    non-empty document list returns the chunks of each document in order,
    every document gives at least one chunk, and no chunk is longer than
    1000 characters. *)
Theorem split_documents_bounds (env : Env) (documents : list Document)
    (w : World) :
  documents <> [] ->
  exists texts w',
    split_documents (with_spec_splitter env) documents w = (Ok texts, w')
    /\ texts = flat_map (SpecSplitter.chunks_of 1000 0) documents
    /\ Forall (fun d => 1 <= List.length (SpecSplitter.chunks_of 1000 0 d)) documents
    /\ Forall (fun c => String.length (page_content c) <= 1000) texts.
Proof.
  intros Hne. eexists. eexists.
  split; [apply split_documents_spec_splitter; exact Hne|].
  split; [reflexivity|].
  split.
  - apply Forall_forall. intros d _. apply chunks_of_not_nil.
  - apply split_bounded. lia.
Qed.

Lemma split_documents_bounds_witness :
  exists texts w',
    split_documents
      (with_spec_splitter
         (Sample.services [] Sample.no_chunks [] Sample.echo_chain))
      [Sample.report; Sample.blank_page] (Sample.start Sample.local_session)
      = (Ok texts, w')
    /\ texts = flat_map (SpecSplitter.chunks_of 1000 0)
                        [Sample.report; Sample.blank_page]
    /\ Forall (fun d => 1 <= List.length (SpecSplitter.chunks_of 1000 0 d))
              [Sample.report; Sample.blank_page]
    /\ Forall (fun c => String.length (page_content c) <= 1000) texts.
Proof.
  apply (split_documents_bounds
           (Sample.services [] Sample.no_chunks [] Sample.echo_chain)
           [Sample.report; Sample.blank_page] (Sample.start Sample.local_session)).
  discriminate.
Defined.

(** C9: with the splitter of the specification, a document of at most
    1000 characters comes back from [split_documents] as exactly one chunk,
    equal to the document. *)
Theorem split_documents_short_document (env : Env) (d : Document) (w : World) :
  String.length (page_content d) <= 1000 ->
  split_documents (with_spec_splitter env) [d] w =
  (Ok [d],
   mkWorld (sess w)
     (StSuccess "Created 1 text chunks."
      :: Ext (SplitDocuments 1000 0 [d]) :: log w)).
Proof.
  intros Hle.
  rewrite split_documents_spec_splitter by discriminate.
  unfold SpecSplitter.split, SpecSplitter.chunks_of. cbn [flat_map].
  rewrite (split_text_short 1000 0 _ Hle).
  destruct d as [text meta]. reflexivity.
Qed.

Lemma split_documents_short_document_witness :
  split_documents
    (with_spec_splitter (Sample.services [] Sample.no_chunks [] Sample.echo_chain))
    [Sample.report] (Sample.start Sample.local_session) =
  (Ok [Sample.report],
   mkWorld Sample.local_session
     [StSuccess "Created 1 text chunks.";
      Ext (SplitDocuments 1000 0 [Sample.report])]).
Proof.
  apply (split_documents_short_document
           (Sample.services [] Sample.no_chunks [] Sample.echo_chain)
           Sample.report (Sample.start Sample.local_session)).
  cbn. lia.
Defined.

(** The splitter of the specification at a small size: consecutive spans,
    and two characters repeated when the overlap is two. *)
Example split_text_by_three :
  SpecSplitter.split_text 3 0 "abcdefgh" = ["abc"; "def"; "gh"].
Proof. reflexivity. Qed.

Example split_text_overlap :
  SpecSplitter.split_text 5 2 "abcdefghij" = ["abcde"; "defgh"; "ghij"].
Proof. reflexivity. Qed.

(** * Further properties of the script *)

(** ** Frames *)

Lemma keeps_ret {A} (a : A) : keeps_session (ret a).
Proof. intros w. reflexivity. Qed.

Lemma keeps_raise {A} (e : Exn) : keeps_session (@raise A e).
Proof. intros w. reflexivity. Qed.

Lemma keeps_emit (e : Event) : keeps_session (emit e).
Proof. intros w. reflexivity. Qed.

Lemma keeps_get : keeps_session get_session.
Proof. intros w. reflexivity. Qed.

Lemma keeps_ext {A} (op : ExtOp) (oracle : list Event -> Result A) :
  keeps_session (ext_call op oracle).
Proof. intros w. reflexivity. Qed.

Lemma keeps_bind {A B} (m : M A) (k : A -> M B) :
  keeps_session m -> (forall a, keeps_session (k a)) -> keeps_session (bind m k).
Proof.
  intros Hm Hk w. unfold bind. specialize (Hm w).
  destruct (m w) as [[a|e] w1]; cbn [snd] in *.
  - rewrite Hk. exact Hm.
  - exact Hm.
Qed.

Lemma keeps_try {A} (m : M A) (h : Exn -> M A) :
  keeps_session m -> (forall e, keeps_session (h e)) -> keeps_session (try_except m h).
Proof.
  intros Hm Hh w. unfold try_except. specialize (Hm w).
  destruct (m w) as [[a|e] w1]; cbn [snd] in *.
  - exact Hm.
  - rewrite Hh. exact Hm.
Qed.

Lemma keeps_for_each {A} (xs : list A) (body : A -> M unit) :
  (forall x, keeps_session (body x)) -> keeps_session (for_each xs body).
Proof.
  intros Hbody. induction xs as [|x xs IH]; cbn [for_each].
  - apply keeps_ret.
  - apply keeps_bind; [apply Hbody|intros _; exact IH].
Qed.

Ltac keeps :=
  repeat first
    [ apply keeps_ret | apply keeps_raise | apply keeps_emit | apply keeps_get
    | apply keeps_ext | apply keeps_for_each; intros
    | apply keeps_bind; [|intros] | apply keeps_try; [|intros]
    | match goal with
      | |- keeps_session (if ?b then _ else _) => destruct b
      | |- keeps_session (match ?x with _ => _ end) => destruct x
      end ].

Lemma load_documents_keeps_session (env : Env) : keeps_session (load_documents env).
Proof. unfold load_documents, st_error, st_success. keeps. Qed.

Lemma split_documents_keeps_session (env : Env) (documents : list Document) :
  keeps_session (split_documents env documents).
Proof. unfold split_documents, st_error, st_success. keeps. Qed.

Lemma local_build_keeps_session (env : Env) (texts : list Document) :
  keeps_session (embeddings_on_local_vectordb env texts).
Proof. unfold embeddings_on_local_vectordb, st_error, st_success. keeps. Qed.

Lemma pinecone_build_keeps_session (env : Env) (texts : list Document) :
  keeps_session (embeddings_on_pinecone env texts).
Proof.
  unfold embeddings_on_pinecone, time_sleep, global_name, st_error, st_success,
    st_info, st_write.
  keeps.
Qed.

Lemma save_uploads_keeps_session (env : Env) : keeps_session (save_uploads env).
Proof. unfold save_uploads. keeps. Qed.

Lemma clean_tmp_keeps_session (env : Env) : keeps_session (clean_tmp env).
Proof. unfold clean_tmp. keeps. Qed.

Lemma build_store_keeps_session (env : Env) (texts : list Document) :
  keeps_session (build_store env texts).
Proof.
  unfold build_store. apply keeps_bind; [apply keeps_get|intros s].
  destruct (negb (pinecone_db s));
    [apply local_build_keeps_session|apply pinecone_build_keeps_session].
Qed.

(** ** Loading and splitting *)

(** X1: [load_documents] never lets an exception out, whatever the file
    system and the loader do, and it leaves the session as it was. *)
Theorem load_documents_never_raises (env : Env) (w : World) :
  exists docs w', load_documents env w = (Ok docs, w') /\ sess w' = sess w.
Proof.
  pose proof (load_documents_keeps_session env w) as Hs.
  unfold load_documents in *. run.
  destruct (tmp_iterdir env (log w)) as [[|f files]|e]; cbn in *; eauto.
  destruct (loader_load env _) as [[|d docs]|e]; cbn in *; eauto.
Qed.

(** X2: on an empty temporary directory [load_documents] reports that no
    document was found and returns the empty list; the directory listing is
    its only request, the loader is not run. *)
Theorem load_documents_empty_directory (env : Env) (w : World) :
  tmp_iterdir env (log w) = Ok [] ->
  load_documents env w =
  (Ok [],
   mkWorld (sess w)
     (StError "No documents found in the temporary directory."
      :: Ext TmpIterdir :: log w)).
Proof.
  intros H. unfold load_documents. run. rewrite H. reflexivity.
Qed.

Lemma load_documents_empty_directory_witness :
  load_documents
    (Faults.empty_tmp (Sample.services [Sample.report] Sample.spec_splitter []
                                       Sample.echo_chain))
    (Sample.start Sample.local_session) =
  (Ok [],
   mkWorld Sample.local_session
     [StError "No documents found in the temporary directory."; Ext TmpIterdir]).
Proof.
  apply (load_documents_empty_directory
           (Faults.empty_tmp (Sample.services [Sample.report] Sample.spec_splitter []
                                              Sample.echo_chain))
           (Sample.start Sample.local_session)).
  reflexivity.
Defined.

(** X3: whenever [load_documents] returns a non-empty list, the directory
    held a file, the list is the one the loader returned, and the success
    report states its length. *)
Theorem load_documents_from_loader (env : Env) (w w' : World)
    (docs : list Document) :
  load_documents env w = (Ok docs, w') ->
  docs <> [] ->
  (exists f files, tmp_iterdir env (log w) = Ok (f :: files))
  /\ loader_load env (Ext TmpIterdir :: log w) = Ok docs
  /\ w' = mkWorld (sess w)
            (StSuccess ("Loaded " ++ str_of_nat (List.length docs)
                        ++ " documents scucessfully")
             :: Ext (LoaderLoad TMP_DIR "**/*.pdf") :: Ext TmpIterdir :: log w).
Proof.
  unfold load_documents. run.
  destruct (tmp_iterdir env (log w)) as [[|f files]|e]; cbn;
    try (intros H Hne; inversion H; subst; congruence).
  destruct (loader_load env _) as [[|d ds]|e]; cbn;
    intros H Hne; inversion H; subst; try congruence.
  split; [eauto|]. split; reflexivity.
Qed.

Lemma load_documents_from_loader_witness :
  (exists f files,
      tmp_iterdir (Sample.services [Sample.report] Sample.spec_splitter []
                                   Sample.echo_chain) [] = Ok (f :: files))
  /\ loader_load (Sample.services [Sample.report] Sample.spec_splitter []
                                  Sample.echo_chain) [Ext TmpIterdir]
     = Ok [Sample.report]
  /\ mkWorld Sample.local_session
       [StSuccess "Loaded 1 documents scucessfully";
        Ext (LoaderLoad "data/tmp" "**/*.pdf"); Ext TmpIterdir]
     = mkWorld Sample.local_session
         [StSuccess ("Loaded " ++ str_of_nat 1 ++ " documents scucessfully");
          Ext (LoaderLoad TMP_DIR "**/*.pdf"); Ext TmpIterdir].
Proof.
  apply (load_documents_from_loader
           (Sample.services [Sample.report] Sample.spec_splitter [] Sample.echo_chain)
           (Sample.start Sample.local_session)
           (mkWorld Sample.local_session
              [StSuccess "Loaded 1 documents scucessfully";
               Ext (LoaderLoad "data/tmp" "**/*.pdf"); Ext TmpIterdir])
           [Sample.report]).
  - reflexivity.
  - discriminate.
Defined.

(** X4: on a non-empty document list [split_documents] hands the list to
    the splitter with chunk size 1000 and overlap 0, returns what the
    splitter returns and raises what it raises: it has no handler of its
    own. *)
Theorem split_documents_passes_through (env : Env) (documents : list Document)
    (w : World) :
  documents <> [] ->
  fst (split_documents env documents w) = splitter_split env (log w) 1000 0 documents
  /\ requests (log (snd (split_documents env documents w)))
     = requests (log w) ++ [SplitDocuments 1000 0 documents].
Proof.
  intros Hne. destruct documents as [|d documents]; [congruence|].
  unfold split_documents. run.
  destruct (splitter_split env (log w) 1000 0 (d :: documents)) as [[|t texts]|e];
    cbn; split; reflexivity.
Qed.

Lemma split_documents_passes_through_witness :
  fst (split_documents
         (Sample.services [] Faults.broken_splitter [] Sample.echo_chain)
         [Sample.report] (Sample.start Sample.local_session))
  = Raise (mkExn "expected string or bytes-like object" None)
  /\ requests (log (snd (split_documents
                           (Sample.services [] Faults.broken_splitter []
                                            Sample.echo_chain)
                           [Sample.report] (Sample.start Sample.local_session))))
     = [] ++ [SplitDocuments 1000 0 [Sample.report]].
Proof.
  apply (split_documents_passes_through
           (Sample.services [] Faults.broken_splitter [] Sample.echo_chain)
           [Sample.report] (Sample.start Sample.local_session)).
  discriminate.
Defined.

(** ** The local store *)

(** X5: [embeddings_on_local_vectordb] never lets an exception out: whether
    the embedding object, Chroma and the retriever request return or raise,
    the function returns, and the session is left as it was. *)
Theorem local_build_never_raises (env : Env) (texts : list Document) (w : World) :
  exists r w',
    embeddings_on_local_vectordb env texts w = (Ok r, w') /\ sess w' = sess w.
Proof.
  pose proof (local_build_keeps_session env texts w) as Hs.
  unfold embeddings_on_local_vectordb in *. run.
  destruct texts as [|t texts]; cbn in *; eauto.
  destruct (new_embeddings env (log w) None) as [emb|e]; cbn in *; eauto.
  destruct (chroma_from_documents env _ _ emb _) as [db|e]; cbn in *; eauto.
  destruct (chroma_persist env _ db) as [[]|e]; cbn in *; eauto.
  destruct (as_retriever env _ db 7) as [[r|]|e]; cbn in *; eauto.
Qed.

Lemma local_build_inversion (env : Env) (texts : list Document)
    (w w' : World) (r : Retriever) :
  embeddings_on_local_vectordb env texts w = (Ok (Some r), w') ->
  texts <> []
  /\ exists emb db,
      w' = mkWorld (sess w)
             (StSuccess "Retriever successfully created!"
              :: Ext (AsRetriever db 7)
              :: Ext (ChromaPersist db)
              :: Ext (ChromaFromDocuments texts emb LOCAL_VECTOR_STORE_DIR)
              :: Ext (NewOpenAIEmbeddings None)
              :: log w).
Proof.
  unfold embeddings_on_local_vectordb. run.
  destruct texts as [|t texts]; cbn; [discriminate|].
  destruct (new_embeddings env (log w) None) as [emb|e]; cbn; [|discriminate].
  destruct (chroma_from_documents env _ _ emb _) as [db|e]; cbn; [|discriminate].
  destruct (chroma_persist env _ db) as [[]|e]; cbn; [|discriminate].
  destruct (as_retriever env _ db 7) as [[r'|]|e]; cbn; try discriminate.
  intros H. inversion H; subst. split; [discriminate|]. eauto.
Qed.

(** X6: a retriever comes back from the local build only at the end of the
    full sequence: chunks were not empty, the store was built from exactly
    these chunks in the local directory, it was persisted, and the
    retriever was asked of that store with [k = 7]. *)
Theorem local_retriever_after_persist (env : Env) (texts : list Document)
    (w w' : World) (r : Retriever) :
  embeddings_on_local_vectordb env texts w = (Ok (Some r), w') ->
  texts <> []
  /\ exists emb db,
      w' = mkWorld (sess w)
             (StSuccess "Retriever successfully created!"
              :: Ext (AsRetriever db 7)
              :: Ext (ChromaPersist db)
              :: Ext (ChromaFromDocuments texts emb LOCAL_VECTOR_STORE_DIR)
              :: Ext (NewOpenAIEmbeddings None)
              :: log w).
Proof. apply local_build_inversion. Qed.

Lemma local_retriever_after_persist_witness :
  [Sample.chunk] <> []
  /\ exists emb db,
      mkWorld Sample.local_session
        [StSuccess "Retriever successfully created!";
         Ext (AsRetriever (vectordb_obj 0) 7);
         Ext (ChromaPersist (vectordb_obj 0));
         Ext (ChromaFromDocuments [Sample.chunk] (embeddings_obj 0) "data/vector_store");
         Ext (NewOpenAIEmbeddings None)]
      = mkWorld Sample.local_session
          (StSuccess "Retriever successfully created!"
           :: Ext (AsRetriever db 7)
           :: Ext (ChromaPersist db)
           :: Ext (ChromaFromDocuments [Sample.chunk] emb LOCAL_VECTOR_STORE_DIR)
           :: Ext (NewOpenAIEmbeddings None)
           :: []).
Proof.
  apply (local_retriever_after_persist
           (Sample.services [] Sample.spec_splitter [] Sample.echo_chain)
           [Sample.chunk] (Sample.start Sample.local_session)
           (mkWorld Sample.local_session
              [StSuccess "Retriever successfully created!";
               Ext (AsRetriever (vectordb_obj 0) 7);
               Ext (ChromaPersist (vectordb_obj 0));
               Ext (ChromaFromDocuments [Sample.chunk] (embeddings_obj 0)
                                        "data/vector_store");
               Ext (NewOpenAIEmbeddings None)])
           (retriever_obj 7)).
  reflexivity.
Defined.

(** ** The cloud store *)

(** X8: the handler of [embeddings_on_pinecone] can itself fail. When the
    client cannot be constructed and the exception carries a [response]
    attribute that is [None], reading [e.response.content] raises an
    [AttributeError] after the error was reported, and the function raises
    instead of returning [None]. *)
Theorem pinecone_handler_raises (env : Env) (texts : list Document) (w : World)
    (e : Exn) :
  texts <> [] ->
  new_pinecone env (log w) (pinecone_api_key (sess w)) = Raise e ->
  exn_response e = Some None ->
  embeddings_on_pinecone env texts w =
  (Raise (attribute_error "NoneType" "content"),
   mkWorld (sess w)
     (StError ("Error creating Pinecone vector store: " ++ exn_str e)
      :: Ext (NewPinecone (pinecone_api_key (sess w))) :: log w)).
Proof.
  intros Hne Hpc Hresp. destruct texts as [|t texts]; [congruence|].
  unfold embeddings_on_pinecone. run. rewrite Hpc. cbn. rewrite Hresp. reflexivity.
Qed.

Lemma pinecone_handler_raises_witness :
  embeddings_on_pinecone
    (Faults.offline (Sample.services [] Sample.spec_splitter [] Sample.echo_chain))
    [Sample.chunk] (Sample.start Sample.cloud_session) =
  (Raise (mkExn "'NoneType' object has no attribute 'content'" None),
   mkWorld Sample.cloud_session
     [StError "Error creating Pinecone vector store: Connection refused";
      Ext (NewPinecone "pc-test")]).
Proof.
  apply (pinecone_handler_raises
           (Faults.offline (Sample.services [] Sample.spec_splitter [] Sample.echo_chain))
           [Sample.chunk] (Sample.start Sample.cloud_session)
           Faults.connection_error).
  - discriminate.
  - reflexivity.
  - reflexivity.
Defined.

(** ** The ingestion run, in general *)

(** Every run of [process_documents] returns, and either leaves the session
    untouched or ends with the store step's result under [retriever]. *)
Lemma process_documents_cases (env : Env) (w : World) :
  exists w',
    process_documents env w = (Ok tt, w')
    /\ (sess w' = sess w
        \/ exists texts w6 r w7,
             sess w6 = sess w
             /\ build_store env texts w6 = (Ok r, w7)
             /\ w' = mkWorld (set_retriever r (sess w))
                       (StSuccess "Documents processed successfully!" :: log w7)).
Proof.
  unfold process_documents. unfold bind at 1. unfold get_session at 1.
  destruct (negb (truthy_str (openai_api_key (sess w))));
    [eexists; split; [reflexivity|left; reflexivity]|].
  destruct (pinecone_db (sess w) && _);
    [eexists; split; [reflexivity|left; reflexivity]|].
  destruct (negb (truthy_list (source_docs (sess w))));
    [eexists; split; [reflexivity|left; reflexivity]|].
  unfold try_except. unfold bind at 1. unfold emit at 1.
  unfold bind at 1.
  pose proof (save_uploads_keeps_session env
                (mkWorld (sess w) (StSpinner "Processing documents..." :: log w))) as K2.
  destruct (save_uploads env _) as [[[]|e] w2]; cbn [snd sess] in K2;
    [|eexists; split; [reflexivity|left; exact K2]].
  unfold bind at 1.
  pose proof (load_documents_keeps_session env w2) as K3.
  destruct (load_documents env w2) as [[docs|e] w3]; cbn [snd] in K3;
    [|eexists; split; [reflexivity|left; cbn; congruence]].
  destruct docs as [|d docs]; cbn [truthy_list negb];
    [eexists; split; [reflexivity|left; cbn; congruence]|].
  unfold bind at 1.
  pose proof (clean_tmp_keeps_session env w3) as K4.
  destruct (clean_tmp env w3) as [[[]|e] w4]; cbn [snd] in K4;
    [|eexists; split; [reflexivity|left; cbn; congruence]].
  unfold bind at 1.
  pose proof (split_documents_keeps_session env (d :: docs) w4) as K5.
  destruct (split_documents env (d :: docs) w4) as [[texts|e] w5]; cbn [snd] in K5;
    [|eexists; split; [reflexivity|left; cbn; congruence]].
  unfold bind at 1.
  assert (Hreport :
            (if negb (truthy_list texts)
             then st_error "Text splitting failed. No text chunks generated."
             else st_success
                    ("Generated " ++ str_of_nat (List.length texts) ++ " text chunks."))
              w5
            = (Ok tt, mkWorld (sess w5) (split_report texts :: log w5))).
  { unfold split_report. destruct (negb (truthy_list texts)); reflexivity. }
  rewrite Hreport. unfold bind at 1.
  pose proof (build_store_keeps_session env texts
                (mkWorld (sess w5) (split_report texts :: log w5))) as K7.
  destruct (build_store env texts _) as [[r|e] w7] eqn:Hbuild; cbn [snd sess] in K7;
    [|eexists; split; [reflexivity|left; cbn; congruence]].
  eexists. split; [reflexivity|]. right.
  exists texts, (mkWorld (sess w5) (split_report texts :: log w5)), r, w7.
  split; [cbn; congruence|]. split; [exact Hbuild|].
  cbn. f_equal. f_equal. congruence.
Qed.

Lemma pinecone_build_no_retriever (env : Env) (texts : list Document) (w : World)
    (r : Retriever) :
  fst (embeddings_on_pinecone env texts w) <> Ok (Some r).
Proof.
  unfold embeddings_on_pinecone.
  destruct texts as [|t texts]; run; [discriminate|].
  destruct (new_pinecone env (log w) (pinecone_api_key (sess w))) as [pc|e0]; cbn.
  - destruct (create_index env _ pc _ 1536 "cosine" _) as [[]|e]; cbn;
      [discriminate|].
    destruct (exn_response e) as [[c|]|]; cbn; discriminate.
  - destruct (exn_response e0) as [[c|]|]; cbn; discriminate.
Qed.

(** X9: [process_documents] never lets an exception out, and of the whole
    session it can change one key only: after the run the session is the
    old one, or the old one with [retriever] assigned. Credentials, toggle,
    uploads and chat history are never touched. *)
Theorem process_documents_changes_only_retriever (env : Env) (w : World) :
  exists w',
    process_documents env w = (Ok tt, w')
    /\ (sess w' = sess w \/ exists r, sess w' = set_retriever r (sess w)).
Proof.
  destruct (process_documents_cases env w) as [w' [Hrun [Hsame|Hset]]].
  - exists w'. auto.
  - destruct Hset as [texts [w6 [r [w7 [_ [_ ->]]]]]].
    eexists. split; [exact Hrun|]. right. exists r. reflexivity.
Qed.

(** X10: when the validation at the head of [process_documents] fails (no
    OpenAI key, Pinecone chosen with a credential missing, or no upload),
    the run consists of one warning: no file is written, no service is
    called and the session is unchanged. *)
Theorem process_documents_rejects_invalid_session (env : Env) (w : World) :
  validated (sess w) = false ->
  exists msg,
    process_documents env w = (Ok tt, mkWorld (sess w) (StWarning msg :: log w)).
Proof.
  unfold validated, process_documents. intros Hv.
  unfold bind at 1. unfold get_session at 1.
  destruct (truthy_str (openai_api_key (sess w))); cbn [negb];
    [|eexists; reflexivity].
  destruct (pinecone_db (sess w) && _); cbn [negb];
    [eexists; reflexivity|].
  destruct (truthy_list (source_docs (sess w))); cbn [negb andb] in *;
    [discriminate|eexists; reflexivity].
Qed.

Lemma process_documents_rejects_invalid_session_witness :
  exists msg,
    process_documents
      (Sample.services [Sample.report] Sample.spec_splitter [] Sample.echo_chain)
      (Sample.start Sample.chatting_session) =
    (Ok tt, mkWorld Sample.chatting_session [StWarning msg]).
Proof.
  apply (process_documents_rejects_invalid_session
           (Sample.services [Sample.report] Sample.spec_splitter [] Sample.echo_chain)
           (Sample.start Sample.chatting_session)).
  reflexivity.
Defined.

(** X11: when loading yields no document the run halts there: it reports
    the failed load and does nothing more, so the temporary files are not
    removed, nothing is split or stored, and the session, a retriever of an
    earlier run included, stays as it was. *)
Theorem process_documents_load_failure_halts (env : Env) (w w2 w3 : World) :
  validated (sess w) = true ->
  save_uploads env (mkWorld (sess w) (StSpinner "Processing documents..." :: log w))
    = (Ok tt, w2) ->
  load_documents env w2 = (Ok [], w3) ->
  process_documents env w =
  (Ok tt, mkWorld (sess w) (StError "Document loading failed." :: log w3)).
Proof.
  intros Hv Hsave Hload.
  pose proof (save_uploads_keeps_session env
                (mkWorld (sess w) (StSpinner "Processing documents..." :: log w))) as K2.
  pose proof (load_documents_keeps_session env w2) as K3.
  rewrite Hsave in K2. rewrite Hload in K3. cbn [snd sess] in *.
  destruct (validated_inv _ Hv) as [H1 [H2 H3]].
  unfold process_documents. unfold bind at 1. unfold get_session at 1.
  rewrite H1, H2, H3. cbn [negb].
  unfold try_except, bind, emit. cbn [sess log].
  rewrite Hsave, Hload. cbn [truthy_list negb].
  unfold st_error, emit. rewrite K3, K2. reflexivity.
Qed.

Lemma process_documents_load_failure_halts_witness :
  process_documents
    (Sample.services [] Sample.spec_splitter [] Sample.echo_chain)
    (Sample.start Sample.local_session) =
  (Ok tt,
   mkWorld Sample.local_session
     [StError "Document loading failed.";
      StError "Documents could not be loaded. Check file formats or permissions";
      Ext (LoaderLoad "data/tmp" "**/*.pdf");
      Ext TmpIterdir;
      Ext (TmpWrite "%PDF-1.4");
      StSpinner "Processing documents..."]).
Proof.
  apply (process_documents_load_failure_halts
           (Sample.services [] Sample.spec_splitter [] Sample.echo_chain)
           (Sample.start Sample.local_session)
           (mkWorld Sample.local_session
              [Ext (TmpWrite "%PDF-1.4"); StSpinner "Processing documents..."])
           (mkWorld Sample.local_session
              [StError "Documents could not be loaded. Check file formats or permissions";
               Ext (LoaderLoad "data/tmp" "**/*.pdf");
               Ext TmpIterdir;
               Ext (TmpWrite "%PDF-1.4");
               StSpinner "Processing documents..."])).
  - reflexivity.
  - reflexivity.
  - reflexivity.
Defined.

(** X12: with the Pinecone toggle on, no run of [process_documents] ever
    stores a usable retriever: afterwards the key [retriever] holds what it
    held before, or [None]. *)
Theorem process_documents_pinecone_never_ready (env : Env) (w : World) :
  pinecone_db (sess w) = true ->
  let w' := snd (process_documents env w) in
  retriever (sess w') = retriever (sess w) \/ retriever (sess w') = Some None.
Proof.
  intros Hdb w'. subst w'.
  destruct (process_documents_cases env w) as [w' [Hrun [Hsame|Hset]]];
    rewrite Hrun; cbn [snd].
  - left. rewrite Hsame. reflexivity.
  - destruct Hset as [texts [w6 [r [w7 [Hs6 [Hbuild ->]]]]]].
    right. cbn. f_equal.
    unfold build_store in Hbuild. unfold bind at 1 in Hbuild.
    unfold get_session at 1 in Hbuild. rewrite Hs6, Hdb in Hbuild. cbn [negb] in Hbuild.
    destruct r as [r|]; [|reflexivity].
    exfalso. apply (pinecone_build_no_retriever env texts w6 r).
    rewrite Hbuild. reflexivity.
Qed.

Lemma process_documents_pinecone_never_ready_witness :
  retriever (sess (snd (process_documents
                          (Sample.services [Sample.report] Sample.spec_splitter []
                                           Sample.echo_chain)
                          (Sample.start Sample.cloud_session))))
    = retriever (sess (Sample.start Sample.cloud_session))
  \/ retriever (sess (snd (process_documents
                             (Sample.services [Sample.report] Sample.spec_splitter []
                                              Sample.echo_chain)
                             (Sample.start Sample.cloud_session))))
     = Some None.
Proof.
  apply (process_documents_pinecone_never_ready
           (Sample.services [Sample.report] Sample.spec_splitter [] Sample.echo_chain)
           (Sample.start Sample.cloud_session)).
  reflexivity.
Defined.

(** X13: a usable retriever that a run of [process_documents] newly stores
    always comes from the local store: the toggle is off, and the log of
    the run holds the request that persisted a Chroma store and the request
    that took the retriever from that same store with [k = 7]. *)
Theorem usable_retriever_is_local (env : Env) (w : World) (r : Retriever) :
  let w' := snd (process_documents env w) in
  retriever (sess w') = Some (Some r) ->
  retriever (sess w) <> Some (Some r) ->
  pinecone_db (sess w) = false
  /\ exists db,
       In (Ext (ChromaPersist db)) (log w')
       /\ In (Ext (AsRetriever db 7)) (log w').
Proof.
  intros w'. subst w'.
  destruct (process_documents_cases env w) as [w' [Hrun [Hsame|Hset]]];
    rewrite Hrun; cbn [snd]; intros Hnew Hold.
  - rewrite Hsame in Hnew. contradiction.
  - destruct Hset as [texts [w6 [r0 [w7 [Hs6 [Hbuild ->]]]]]].
    cbn in Hnew. inversion Hnew; subst r0.
    unfold build_store in Hbuild. unfold bind at 1 in Hbuild.
    unfold get_session at 1 in Hbuild. rewrite Hs6 in Hbuild.
    destruct (pinecone_db (sess w)); cbn [negb] in Hbuild.
    + exfalso. apply (pinecone_build_no_retriever env texts w6 r).
      rewrite Hbuild. reflexivity.
    + split; [reflexivity|].
      destruct (local_build_inversion _ _ _ _ _ Hbuild) as [_ [emb [db ->]]].
      exists db. cbn. split; auto.
Qed.

Lemma usable_retriever_is_local_witness :
  pinecone_db (sess (Sample.start Sample.local_session)) = false
  /\ exists db,
       In (Ext (ChromaPersist db))
          (log (snd (process_documents
                       (Sample.services [Sample.report] Sample.spec_splitter []
                                        Sample.echo_chain)
                       (Sample.start Sample.local_session))))
       /\ In (Ext (AsRetriever db 7))
             (log (snd (process_documents
                          (Sample.services [Sample.report] Sample.spec_splitter []
                                           Sample.echo_chain)
                          (Sample.start Sample.local_session)))).
Proof.
  apply (usable_retriever_is_local
           (Sample.services [Sample.report] Sample.spec_splitter [] Sample.echo_chain)
           (Sample.start Sample.local_session) (retriever_obj 7)).
  - reflexivity.
  - discriminate.
Defined.

(** X14: an exception of the splitter is not handled in [split_documents]
    but at the end of [process_documents]: the run reports it as
    [An error occurred: ...], the store step is not reached and the session
    stays as it was. *)
Theorem splitter_exception_is_reported (env : Env) (w w2 w3 w4 : World)
    (docs : list Document) (e : Exn) :
  validated (sess w) = true ->
  save_uploads env (mkWorld (sess w) (StSpinner "Processing documents..." :: log w))
    = (Ok tt, w2) ->
  load_documents env w2 = (Ok docs, w3) ->
  docs <> [] ->
  clean_tmp env w3 = (Ok tt, w4) ->
  splitter_split env (log w4) 1000 0 docs = Raise e ->
  process_documents env w =
  (Ok tt,
   mkWorld (sess w)
     (StError ("An error occurred: " ++ exn_str e)
      :: Ext (SplitDocuments 1000 0 docs) :: log w4)).
Proof.
  intros Hv Hsave Hload Hdocs Hclean Hsplit.
  pose proof (save_uploads_keeps_session env
                (mkWorld (sess w) (StSpinner "Processing documents..." :: log w))) as K2.
  pose proof (load_documents_keeps_session env w2) as K3.
  pose proof (clean_tmp_keeps_session env w3) as K4.
  rewrite Hsave in K2. rewrite Hload in K3. rewrite Hclean in K4.
  cbn [snd sess] in *.
  destruct (validated_inv _ Hv) as [H1 [H2 H3]].
  unfold process_documents. unfold bind at 1. unfold get_session at 1.
  rewrite H1, H2, H3. cbn [negb].
  unfold try_except, bind, emit. cbn [sess log].
  rewrite Hsave, Hload.
  destruct docs as [|d docs]; [congruence|]. cbn [truthy_list negb].
  rewrite Hclean.
  unfold split_documents. cbn [truthy_list negb].
  unfold bind, ext_call. rewrite Hsplit.
  unfold st_error, emit. cbn [sess log]. rewrite K4, K3, K2. reflexivity.
Qed.

Lemma splitter_exception_is_reported_witness :
  process_documents
    (Sample.services [Sample.report] Faults.broken_splitter [] Sample.echo_chain)
    (Sample.start Sample.local_session) =
  (Ok tt,
   mkWorld Sample.local_session
     [StError "An error occurred: expected string or bytes-like object";
      Ext (SplitDocuments 1000 0 [Sample.report]);
      Ext (TmpUnlink "upload0.pdf");
      Ext TmpIterdir;
      StSuccess "Loaded 1 documents scucessfully";
      Ext (LoaderLoad "data/tmp" "**/*.pdf");
      Ext TmpIterdir;
      Ext (TmpWrite "%PDF-1.4");
      StSpinner "Processing documents..."]).
Proof.
  apply (splitter_exception_is_reported
           (Sample.services [Sample.report] Faults.broken_splitter [] Sample.echo_chain)
           (Sample.start Sample.local_session)
           (mkWorld Sample.local_session
              [Ext (TmpWrite "%PDF-1.4"); StSpinner "Processing documents..."])
           (mkWorld Sample.local_session
              [StSuccess "Loaded 1 documents scucessfully";
               Ext (LoaderLoad "data/tmp" "**/*.pdf");
               Ext TmpIterdir;
               Ext (TmpWrite "%PDF-1.4");
               StSpinner "Processing documents..."])
           (mkWorld Sample.local_session
              [Ext (TmpUnlink "upload0.pdf");
               Ext TmpIterdir;
               StSuccess "Loaded 1 documents scucessfully";
               Ext (LoaderLoad "data/tmp" "**/*.pdf");
               Ext TmpIterdir;
               Ext (TmpWrite "%PDF-1.4");
               StSpinner "Processing documents..."])
           [Sample.report]
           (mkExn "expected string or bytes-like object" None)).
  - reflexivity.
  - reflexivity.
  - reflexivity.
  - discriminate.
  - reflexivity.
  - reflexivity.
Defined.

(** When Pinecone cannot be reached the failing handler of the cloud build
    is caught one level up, and the key [retriever] is not assigned. *)
Example offline_pinecone_run :
  process_documents
    (Faults.offline (Sample.services [Sample.report] Sample.spec_splitter []
                                     Sample.echo_chain))
    (Sample.start Sample.cloud_session) =
  (Ok tt,
   mkWorld Sample.cloud_session
     [StError "An error occurred: 'NoneType' object has no attribute 'content'";
      StError "Error creating Pinecone vector store: Connection refused";
      Ext (NewPinecone "pc-test");
      StSuccess "Generated 1 text chunks.";
      StSuccess "Created 1 text chunks.";
      Ext (SplitDocuments 1000 0 [Sample.report]);
      Ext (TmpUnlink "upload0.pdf");
      Ext TmpIterdir;
      StSuccess "Loaded 1 documents scucessfully";
      Ext (LoaderLoad "data/tmp" "**/*.pdf");
      Ext TmpIterdir;
      Ext (TmpWrite "%PDF-1.4");
      StSpinner "Processing documents..."]).
Proof. reflexivity. Qed.

(** ** Questions, in general *)

Lemma query_llm_cases (env : Env) (r : option Retriever) (query : string)
    (w : World) :
  exists text w',
    query_llm env r query w = (Ok text, w')
    /\ (sess w' = sess w
        \/ exists h,
             messages (sess w) = Some h
             /\ sess w' = set_messages (h ++ [(query, text)]) (sess w)).
Proof.
  destruct r as [r'|]; run; [|eauto].
  destruct (new_chat_openai env (log w) (openai_api_key (sess w))) as [llm|e1]; cbn;
    [|eauto].
  destruct (chain_from_llm env _ llm r') as [chain|e2]; cbn; [|eauto].
  destruct (messages (sess w)) as [h|] eqn:Hh; cbn; [|eauto].
  destruct (chain_call env _ chain query h) as [result|e3]; cbn; [|eauto].
  rewrite Hh; cbn.
  destruct (answer result) as [a|]; cbn; [|eauto].
  eexists. eexists. split; [reflexivity|]. right. exists h. auto.
Qed.

(** X15: [query_llm] always returns a text, and the session after it is
    either the session before it or that session with exactly one turn, the
    query with the returned text, appended to the stored history. Earlier
    turns are never dropped, reordered or rewritten. *)
Theorem query_llm_history_append_only (env : Env) (r : option Retriever)
    (query : string) (w : World) :
  exists text w',
    query_llm env r query w = (Ok text, w')
    /\ (sess w' = sess w
        \/ exists h,
             messages (sess w) = Some h
             /\ sess w' = set_messages (h ++ [(query, text)]) (sess w)).
Proof. apply query_llm_cases. Qed.

(** X16: every call of the chain that [query_llm] makes carries the query
    it was given and the complete stored history, and it makes at most one
    such call. *)
Theorem chain_called_with_stored_history (env : Env) (r : option Retriever)
    (query : string) (w : World) :
  let w' := snd (query_llm env r query w) in
  (requests (log w') = requests (log w)
   \/ (exists key, requests (log w') = requests (log w) ++ [NewChatOpenAI key])
   \/ (exists key llm r',
         requests (log w') = requests (log w)
                             ++ [NewChatOpenAI key; ChainFromLlm llm r'])
   \/ (exists key llm r' chain h,
         r = Some r'
         /\ messages (sess w) = Some h
         /\ requests (log w') = requests (log w)
                                ++ [NewChatOpenAI key; ChainFromLlm llm r';
                                    ChainCall chain query h])).
Proof.
  intros w'. subst w'.
  destruct r as [r'|]; run; [|auto].
  destruct (new_chat_openai env (log w) (openai_api_key (sess w))) as [llm|e1]; cbn;
    [|right; left; eauto].
  destruct (chain_from_llm env _ llm r') as [chain|e2]; cbn;
    [|right; right; left; exists (openai_api_key (sess w)), llm, r';
      rewrite <- app_assoc; reflexivity].
  destruct (messages (sess w)) as [h|] eqn:Hh; cbn;
    [|right; right; left; exists (openai_api_key (sess w)), llm, r';
      rewrite <- app_assoc; reflexivity].
  right. right. right.
  exists (openai_api_key (sess w)), llm, r', chain, h.
  split; [reflexivity|]. split; [reflexivity|].
  destruct (chain_call env _ chain query h) as [result|e3]; cbn.
  - rewrite Hh; cbn.
    destruct (answer result) as [a|]; cbn; rewrite <- !app_assoc; reflexivity.
  - rewrite <- !app_assoc; reflexivity.
Qed.

(** ** The page *)

Lemma rendered_chronological (h : list Turn) (l : list Event) :
  rev (rendered h l) = rev l ++ flat_map turn_events h.
Proof.
  revert l. induction h as [|m h IH]; intros l; cbn [rendered flat_map].
  - rewrite app_nil_r. reflexivity.
  - rewrite IH. cbn [rev turn_events]. rewrite <- !app_assoc. reflexivity.
Qed.

(** X17: [show_history] puts every stored turn on the page, oldest first,
    the question before its answer, and adds nothing else. *)
Theorem show_history_in_order (env : Env) (w : World) (h : list Turn) :
  messages (sess w) = Some h ->
  fst (show_history env w) = Ok tt
  /\ sess (snd (show_history env w)) = sess w
  /\ rev (log (snd (show_history env w))) = rev (log w) ++ flat_map turn_events h.
Proof.
  intros Hm. rewrite (show_history_renders env w h Hm). cbn [fst snd sess log].
  split; [reflexivity|]. split; [reflexivity|]. apply rendered_chronological.
Qed.

Lemma show_history_in_order_witness :
  fst (show_history (Sample.services [] Sample.spec_splitter [] Sample.echo_chain)
                    (Sample.start Sample.chatting_session)) = Ok tt
  /\ sess (snd (show_history
                  (Sample.services [] Sample.spec_splitter [] Sample.echo_chain)
                  (Sample.start Sample.chatting_session)))
     = Sample.chatting_session
  /\ rev (log (snd (show_history
                      (Sample.services [] Sample.spec_splitter [] Sample.echo_chain)
                      (Sample.start Sample.chatting_session))))
     = rev [] ++ flat_map turn_events [("What is X?", "X is a letter.")].
Proof.
  apply (show_history_in_order
           (Sample.services [] Sample.spec_splitter [] Sample.echo_chain)
           (Sample.start Sample.chatting_session)
           [("What is X?", "X is a letter.")]).
  reflexivity.
Defined.

(** The first half of [main]: the history key is created when absent, the
    widgets are read and the stored turns are shown; the rest runs on the
    resulting world. *)
Lemma main_up_to_chat_input (env : Env) (fe : Frontend) (w : World) :
  main env fe w =
  (match chat_input fe with
   | Some query =>
       if truthy_str query then
         s' <- get_session ;;
         match retriever s' with
         | None => st_warning "Please process documents first."
         | Some r =>
             chat_write "human" query ;;
             response <- query_llm env r query ;;
             chat_write "assistant" response
         end
       else ret tt
   | None => ret tt
   end)
    (mkWorld (set_messages (stored_history (sess w)) (configured fe (sess w)))
             (rendered (stored_history (sess w)) (log w))).
Proof.
  destruct w as [s l]. unfold main, setup_interface, stored_history. cbn [sess log].
  unfold bind at 1. unfold get_session at 1. cbn [sess log].
  unfold bind at 1.
  destruct (messages s) as [h|] eqn:Hm.
  - unfold ret at 1. unfold bind at 1. unfold bind at 1.
    unfold get_session at 1, put_session at 1. cbn [sess log].
    unfold bind at 1.
    erewrite show_history_renders by (cbn; exact Hm).
    cbn [sess log]. unfold set_messages, configured. cbn. rewrite Hm. reflexivity.
  - unfold put_session at 1. cbn [sess log]. unfold bind at 1. unfold bind at 1.
    unfold get_session at 1, put_session at 1. cbn [sess log].
    unfold bind at 1.
    erewrite show_history_renders by (cbn; reflexivity).
    reflexivity.
Qed.

Lemma main_cases (env : Env) (fe : Frontend) (w : World) :
  exists w' suffix,
    main env fe w = (Ok tt, w')
    /\ sess w' = set_messages (stored_history (sess w) ++ suffix)
                              (configured fe (sess w))
    /\ List.length suffix <= 1
    /\ retriever (sess w') = retriever (sess w).
Proof.
  rewrite main_up_to_chat_input.
  set (h0 := stored_history (sess w)).
  set (s1 := set_messages h0 (configured fe (sess w))).
  assert (Hnil : s1 = set_messages (h0 ++ []) (configured fe (sess w))).
  { rewrite app_nil_r. reflexivity. }
  assert (Hr1 : retriever s1 = retriever (sess w)) by reflexivity.
  assert (Hm1 : messages s1 = Some h0) by reflexivity.
  assert (Hadd : forall t, set_messages (h0 ++ [t]) s1
                           = set_messages (h0 ++ [t]) (configured fe (sess w)))
    by reflexivity.
  clearbody s1.
  destruct (chat_input fe) as [q|];
    [|exists (mkWorld s1 (rendered h0 (log w))), []; cbn; auto].
  destruct (truthy_str q);
    [|exists (mkWorld s1 (rendered h0 (log w))), []; cbn; auto].
  unfold bind at 1. unfold get_session at 1. cbn [sess log].
  destruct (retriever s1) as [r|] eqn:Hr.
  - unfold bind at 1. unfold chat_write at 1, emit at 1. cbn [sess log].
    unfold bind at 1.
    destruct (query_llm_cases env r q
                (mkWorld s1 (ChatMessage "human" q :: rendered h0 (log w))))
      as [text [w2 [Hrun Hsess]]].
    rewrite Hrun. cbn [sess] in Hsess.
    destruct Hsess as [Hsame|[h [Hh Hset]]].
    + eexists. exists []. split; [reflexivity|]. cbn [sess].
      rewrite Hsame. split; [exact Hnil|]. split; [cbn; lia|]. congruence.
    + eexists. exists [(q, text)]. split; [reflexivity|]. cbn [sess].
      rewrite Hset. rewrite Hm1 in Hh. inversion Hh; subst h.
      split; [apply Hadd|]. split; [cbn; lia|]. cbn. congruence.
  - eexists. exists []. split; [reflexivity|]. cbn [sess].
    split; [exact Hnil|]. split; [cbn; lia|]. congruence.
Qed.

(** X18: [main] never lets an exception out. After it the configuration
    keys hold what the secrets and widgets of this run give, the key
    [retriever] is what it was, and the history is the one stored before
    with at most one turn appended. *)
Theorem main_session_after_run (env : Env) (fe : Frontend) (w : World) :
  exists w' suffix,
    main env fe w = (Ok tt, w')
    /\ sess w' = set_messages (stored_history (sess w) ++ suffix)
                              (configured fe (sess w))
    /\ List.length suffix <= 1
    /\ retriever (sess w') = retriever (sess w).
Proof. apply main_cases. Qed.

(** X19: a question typed while the key [retriever] is absent is answered
    by the warning [Please process documents first.] alone: no service is
    called, nothing is appended to the history, and the question itself is
    not shown on the page. *)
Theorem main_without_retriever_key (env : Env) (fe : Frontend) (w : World)
    (q : string) :
  retriever (sess w) = None ->
  chat_input fe = Some q ->
  truthy_str q = true ->
  main env fe w =
  (Ok tt,
   mkWorld (set_messages (stored_history (sess w)) (configured fe (sess w)))
           (StWarning "Please process documents first."
            :: rendered (stored_history (sess w)) (log w))).
Proof.
  intros Hr Hq Htruthy. rewrite main_up_to_chat_input, Hq, Htruthy.
  unfold bind, get_session. cbn. rewrite Hr. reflexivity.
Qed.

Lemma main_without_retriever_key_witness :
  main (Sample.services [] Sample.spec_splitter [] Sample.echo_chain)
       (Sample.asks "What is X?") (Sample.start Sample.local_session) =
  (Ok tt,
   mkWorld (set_messages [] (configured (Sample.asks "What is X?") Sample.local_session))
           [StWarning "Please process documents first."]).
Proof.
  apply (main_without_retriever_key
           (Sample.services [] Sample.spec_splitter [] Sample.echo_chain)
           (Sample.asks "What is X?") (Sample.start Sample.local_session)
           "What is X?"); reflexivity.
Defined.

(** X20: a run of [main] with an empty chat box (nothing submitted, or the
    empty string) only shows the stored turns: no service is called and the
    history is unchanged. *)
Theorem main_without_question (env : Env) (fe : Frontend) (w : World) :
  match chat_input fe with
  | Some q => truthy_str q = false
  | None => True
  end ->
  main env fe w =
  (Ok tt,
   mkWorld (set_messages (stored_history (sess w)) (configured fe (sess w)))
           (rendered (stored_history (sess w)) (log w))).
Proof.
  intros Hq. rewrite main_up_to_chat_input.
  destruct (chat_input fe) as [q|]; [rewrite Hq|]; reflexivity.
Qed.

Lemma main_without_question_witness :
  main (Sample.services [] Sample.spec_splitter [] Sample.echo_chain)
       (mkFrontend [] "sk-test" EmptyString EmptyString EmptyString false []
                   (Some EmptyString))
       (Sample.start Sample.chatting_session) =
  (Ok tt,
   mkWorld Sample.chatting_session
           [ChatMessage "assistant" "X is a letter.";
            ChatMessage "human" "What is X?"]).
Proof.
  apply (main_without_question
           (Sample.services [] Sample.spec_splitter [] Sample.echo_chain)
           (mkFrontend [] "sk-test" EmptyString EmptyString EmptyString false []
                       (Some EmptyString))
           (Sample.start Sample.chatting_session)).
  reflexivity.
Defined.

(** X21: when the upload widget is empty in a run of [main], a click on
    [Process Documents] afterwards yields one warning and nothing else,
    whatever the session held before: the uploads of an earlier run are not
    processed again. *)
Theorem no_upload_no_ingestion (env : Env) (fe : Frontend) (w : World) :
  uploaded fe = [] ->
  exists w1 msg,
    main env fe w = (Ok tt, w1)
    /\ process_documents env w1 = (Ok tt, mkWorld (sess w1) (StWarning msg :: log w1)).
Proof.
  intros Hup.
  destruct (main_cases env fe w) as [w1 [suffix [Hrun [Hs _]]]].
  exists w1.
  assert (Hinvalid : validated (sess w1) = false).
  { rewrite Hs. unfold validated. cbn. rewrite Hup. cbn.
    rewrite andb_false_r. reflexivity. }
  unfold validated, process_documents.
  unfold bind at 1. unfold get_session at 1.
  destruct (truthy_str (openai_api_key (sess w1))); cbn [negb];
    [|eexists; split; [exact Hrun|reflexivity]].
  destruct (pinecone_db (sess w1) && _); cbn [negb];
    [eexists; split; [exact Hrun|reflexivity]|].
  assert (Hdocs : source_docs (sess w1) = []).
  { rewrite Hs. cbn. exact Hup. }
  rewrite Hdocs. cbn [truthy_list negb].
  eexists; split; [exact Hrun|reflexivity].
Qed.

Lemma no_upload_no_ingestion_witness :
  exists w1 msg,
    main (Sample.services [Sample.report] Sample.spec_splitter [] Sample.echo_chain)
         (Sample.asks "What is X?") (Sample.start Sample.local_session)
      = (Ok tt, w1)
    /\ process_documents
         (Sample.services [Sample.report] Sample.spec_splitter [] Sample.echo_chain) w1
       = (Ok tt, mkWorld (sess w1) (StWarning msg :: log w1)).
Proof.
  apply (no_upload_no_ingestion
           (Sample.services [Sample.report] Sample.spec_splitter [] Sample.echo_chain)
           (Sample.asks "What is X?") (Sample.start Sample.local_session)).
  reflexivity.
Defined.

(** ** The temporary directory *)

Lemma for_each_requests {A} (op : A -> ExtOp)
    (oracle : A -> list Event -> Result unit) (xs : list A) :
  (forall x l, oracle x l = Ok tt) ->
  forall w,
    for_each xs (fun x => ext_call (op x) (oracle x)) w =
    (Ok tt, mkWorld (sess w) (rev (map (fun x => Ext (op x)) xs) ++ log w)).
Proof.
  intros Hok. induction xs as [|x xs IH]; intros w.
  - destruct w; reflexivity.
  - cbn [for_each map rev]. unfold bind at 1. unfold ext_call at 1.
    rewrite Hok, IH. cbn [sess log]. rewrite <- app_assoc. reflexivity.
Qed.

(** X22: when every write succeeds, [save_uploads] copies each upload of
    the session into the temporary directory once, in upload order, and
    does nothing else. *)
Theorem save_uploads_writes_each_upload (env : Env) (w : World) :
  (forall l bytes, tmp_write env l bytes = Ok tt) ->
  save_uploads env w =
  (Ok tt,
   mkWorld (sess w)
     (rev (map (fun bytes => Ext (TmpWrite bytes)) (source_docs (sess w))) ++ log w)).
Proof.
  intros Hok. unfold save_uploads. unfold bind at 1. unfold get_session at 1.
  apply (for_each_requests TmpWrite (fun d l => tmp_write env l d)).
  intros x l. apply Hok.
Qed.

Lemma save_uploads_writes_each_upload_witness :
  save_uploads (Sample.services [] Sample.spec_splitter [] Sample.echo_chain)
               (Sample.start Sample.local_session) =
  (Ok tt, mkWorld Sample.local_session [Ext (TmpWrite "%PDF-1.4")]).
Proof.
  apply (save_uploads_writes_each_upload
           (Sample.services [] Sample.spec_splitter [] Sample.echo_chain)
           (Sample.start Sample.local_session)).
  reflexivity.
Defined.

(** X23: when the listing and every removal succeed, [clean_tmp] removes
    exactly the files that the listing returned, each once and in listing
    order. *)
Theorem clean_tmp_removes_listed_files (env : Env) (w : World)
    (files : list string) :
  tmp_iterdir env (log w) = Ok files ->
  (forall l f, tmp_unlink env l f = Ok tt) ->
  clean_tmp env w =
  (Ok tt,
   mkWorld (sess w)
     (rev (map (fun f => Ext (TmpUnlink f)) files) ++ Ext TmpIterdir :: log w)).
Proof.
  intros Hls Hok. unfold clean_tmp. unfold bind at 1. unfold ext_call at 1.
  rewrite Hls.
  rewrite (for_each_requests TmpUnlink (fun f l => tmp_unlink env l f))
    by (intros x l; apply Hok).
  reflexivity.
Qed.

Lemma clean_tmp_removes_listed_files_witness :
  clean_tmp (Sample.services [] Sample.spec_splitter [] Sample.echo_chain)
            (Sample.start Sample.local_session) =
  (Ok tt,
   mkWorld Sample.local_session [Ext (TmpUnlink "upload0.pdf"); Ext TmpIterdir]).
Proof.
  apply (clean_tmp_removes_listed_files
           (Sample.services [] Sample.spec_splitter [] Sample.echo_chain)
           (Sample.start Sample.local_session) ["upload0.pdf"]).
  - reflexivity.
  - reflexivity.
Defined.
